(** * Terminal Mentor: the command dispatcher and quiz state machine of
      [src/app/page.tsx], embedded as pure functions on an explicit session
      state.

    JavaScript strings are sequences of UTF-16 code units; the counters of the
    session are integer-valued numbers (exact below 2^53, which is all a
    session can reach by counting submissions), and the one place where the
    page divides, the accuracy of the status line, is evaluated in IEEE 754
    binary64 as the engine does. *)

From Stdlib Require Import ZArith NArith List Bool Lia.
From Stdlib Require Import Strings.String Strings.Ascii.
From Stdlib Require Import Floats.SpecFloat.
Import ListNotations.
Open Scope string_scope.
Open Scope list_scope.

(** ** The JavaScript primitives the page calls *)

Module JS.

Definition code_unit := N.
Definition jsstring := list code_unit.

(** *** String literals

    The literals of the page are written here as they are in the source; the
    text of a literal is UTF-8, and [lit] turns it into UTF-16 code units. *)

Definition utf16_of_code_point (cp : N) : jsstring :=
  if (cp <? 65536)%N then [cp]
  else let v := (cp - 65536)%N in
       [(55296 + v / 1024)%N; (56320 + v mod 1024)%N].

Fixpoint utf8_decode (bs : list N) : jsstring :=
  match bs with
  | [] => []
  | b0 :: r1 =>
    if (b0 <? 128)%N then b0 :: utf8_decode r1
    else match r1 with
    | [] => []
    | b1 :: r2 =>
      if (b0 <? 224)%N then
        utf16_of_code_point ((b0 mod 32) * 64 + b1 mod 64)%N ++ utf8_decode r2
      else match r2 with
      | [] => []
      | b2 :: r3 =>
        if (b0 <? 240)%N then
          utf16_of_code_point
            ((b0 mod 16) * 4096 + (b1 mod 64) * 64 + b2 mod 64)%N
            ++ utf8_decode r3
        else match r3 with
        | [] => []
        | b3 :: r4 =>
          utf16_of_code_point
            ((b0 mod 8) * 262144 + (b1 mod 64) * 4096
             + (b2 mod 64) * 64 + b3 mod 64)%N
            ++ utf8_decode r4
        end
      end
    end
  end.

Definition lit (s : string) : jsstring :=
  utf8_decode (map N_of_ascii (list_ascii_of_string s)).

(** The double quote, which the templates of the page put around a term. *)
Definition dquote : jsstring := [34%N].

(** *** [===] on strings *)

Fixpoint str_eqb (a b : jsstring) : bool :=
  match a, b with
  | [], [] => true
  | x :: a', y :: b' => (x =? y)%N && str_eqb a' b'
  | _, _ => false
  end.

(** A string is falsy exactly when it is empty. *)
Definition truthy (s : jsstring) : bool :=
  match s with [] => false | _ :: _ => true end.

(** *** [String.prototype.trim]

    White space and line terminators of ECMAScript, as code units. *)

Definition isWhiteSpace (c : code_unit) : bool :=
  ((9 <=? c) && (c <=? 13) || (c =? 32) || (c =? 160) || (c =? 5760)
   || (8192 <=? c) && (c <=? 8202) || (c =? 8232) || (c =? 8233)
   || (c =? 8239) || (c =? 8287) || (c =? 12288) || (c =? 65279))%N.

Fixpoint dropWhile {A} (p : A -> bool) (l : list A) : list A :=
  match l with
  | [] => []
  | x :: r => if p x then dropWhile p r else l
  end.

Fixpoint takeWhile {A} (p : A -> bool) (l : list A) : list A :=
  match l with
  | [] => []
  | x :: r => if p x then x :: takeWhile p r else []
  end.

Definition trimStart (s : jsstring) : jsstring := dropWhile isWhiteSpace s.
Definition trimEnd (s : jsstring) : jsstring :=
  rev (dropWhile isWhiteSpace (rev s)).
Definition trim (s : jsstring) : jsstring := trimEnd (trimStart s).

(** *** [split] on a one-character separator, and [join] *)

Fixpoint split (sep : code_unit) (s : jsstring) : list jsstring :=
  match s with
  | [] => [[]]
  | c :: r =>
    if (c =? sep)%N then [] :: split sep r
    else match split sep r with
         | [] => [[c]]
         | w :: ws => (c :: w) :: ws
         end
  end.

Fixpoint join (sep : jsstring) (parts : list jsstring) : jsstring :=
  match parts with
  | [] => []
  | [p] => p
  | p :: rest => p ++ sep ++ join sep rest
  end.

(** *** [slice(0, n)] and [padEnd(n, " ")] *)

Definition slice0 (s : jsstring) (n : nat) : jsstring := firstn n s.

Definition padEnd (n : nat) (s : jsstring) : jsstring :=
  s ++ repeat 32%N (n - List.length s).

(** *** Case mapping

    On a string of ASCII code units [toLowerCase] and [toUpperCase] map the
    letters one by one; what they do to any other string is the engine's
    Unicode case mapping, which is taken as given. *)

Definition isAscii (s : jsstring) : bool := forallb (fun c => (c <? 128)%N) s.

Definition lower_ascii (c : code_unit) : code_unit :=
  if ((65 <=? c) && (c <=? 90))%N then (c + 32)%N else c.

Definition upper_ascii (c : code_unit) : code_unit :=
  if ((97 <=? c) && (c <=? 122))%N then (c - 32)%N else c.

Record CaseMapping := {
  lowerUnicode : jsstring -> jsstring;
  upperUnicode : jsstring -> jsstring
}.

Definition toLowerCase (cm : CaseMapping) (s : jsstring) : jsstring :=
  if isAscii s then map lower_ascii s else lowerUnicode cm s.

Definition toUpperCase (cm : CaseMapping) (s : jsstring) : jsstring :=
  if isAscii s then map upper_ascii s else upperUnicode cm s.

(** *** Numbers in templates: an integer prints in decimal *)

Fixpoint digits (d : Decimal.uint) : jsstring :=
  match d with
  | Decimal.Nil => []
  | Decimal.D0 r => 48%N :: digits r
  | Decimal.D1 r => 49%N :: digits r
  | Decimal.D2 r => 50%N :: digits r
  | Decimal.D3 r => 51%N :: digits r
  | Decimal.D4 r => 52%N :: digits r
  | Decimal.D5 r => 53%N :: digits r
  | Decimal.D6 r => 54%N :: digits r
  | Decimal.D7 r => 55%N :: digits r
  | Decimal.D8 r => 56%N :: digits r
  | Decimal.D9 r => 57%N :: digits r
  end.

Definition toString (n : N) : jsstring := digits (N.to_uint n).

Definition toStringZ (z : Z) : jsstring :=
  match z with
  | Zneg p => 45%N :: toString (Npos p)
  | _ => toString (Z.to_N z)
  end.

(** *** binary64 arithmetic *)

Definition prec : Z := 53.
Definition emax : Z := 1024.

Definition number := spec_float.

Definition ofN (n : N) : number := binary_normalize prec emax (Z.of_N n) 0 false.
Definition fdiv (x y : number) : number := SFdiv prec emax x y.
Definition fmul (x y : number) : number := SFmul prec emax x y.

(** [Math.floor] and [Math.round] of a finite number, as an integer;
    [Math.round] is the nearest integer, a tie going up.  [None] is NaN or an
    infinity. *)
Definition Math_floor (x : number) : option Z :=
  match x with
  | S754_zero _ => Some 0%Z
  | S754_finite s m e =>
    let v := (if s then Z.neg m else Z.pos m) in
    Some (if (0 <=? e)%Z then v * 2 ^ e else v / 2 ^ (- e))%Z
  | _ => None
  end.

Definition Math_round (x : number) : option Z :=
  match x with
  | S754_zero _ => Some 0%Z
  | S754_finite s m e =>
    let v := (if s then Z.neg m else Z.pos m) in
    Some (if (0 <=? e)%Z then v * 2 ^ e
          else (2 * v + 2 ^ (- e)) / 2 ^ (1 - e))%Z
  | _ => None
  end.

(** [Math.ceil(n / 2)] for a length [n]. *)
Definition ceil_half (n : nat) : nat := Nat.div2 (S n).

(** [arr[i]] when [i] is what [Math.floor] returned. *)
Definition index {A} (l : list A) (i : option Z) : option A :=
  match i with
  | Some z => if (z <? 0)%Z then None else nth_error l (Z.to_nat z)
  | None => None
  end.

(** A string inside a template; [undefined] prints as its name. *)
Definition show (s : option jsstring) : jsstring :=
  match s with Some x => x | None => lit "undefined" end.

End JS.

Import JS.


(** ** The content store, [@/data/knowledge] *)

(** Modelled from the spec: the types of [@/data/knowledge], which the page
    imports and which is not part of the sources at hand.  [QuizQuestion] is
    the record of the data model (prompt, answer, explanation, optional
    choices); the other records have the fields the page reads. *)
Module QuizQuestion.
Record t := {
  prompt : jsstring;
  answer : jsstring;
  explanation : jsstring;
  choices : option (list jsstring)
}.
End QuizQuestion.

Module Resource.
Record t := { title : jsstring; url : jsstring; description : jsstring }.
End Resource.

Module Lab.
Record t := {
  title : jsstring;
  difficulty : jsstring;
  time : jsstring;
  goal : jsstring;
  steps : list jsstring;
  checklist : list jsstring
}.
End Lab.

Module Topic.
Record t := {
  id : jsstring;
  title : jsstring;
  summary : jsstring;
  fundamentals : list jsstring;
  advanced : list jsstring;
  quickWins : list jsstring;
  warningSigns : list jsstring;
  studyPath : list jsstring;
  resources : list Resource.t;
  labs : list Lab.t;
  quiz : list QuizQuestion.t
}.
End Topic.

Module GlossaryEntry.
Record t := { term : jsstring; definition : jsstring; context : jsstring }.
End GlossaryEntry.

(** Modelled from the spec: the query interface of the content store
    (external interfaces of the spec), the ten names the page imports from
    [@/data/knowledge].  A lookup that finds nothing is [None]. *)
Record Knowledge := {
  dailySuggestions : list jsstring;
  findTopicByAlias : jsstring -> option Topic.t;
  getAllQuizQuestions : list QuizQuestion.t;
  glossary : list GlossaryEntry.t;
  lookupGlossary : jsstring -> option GlossaryEntry.t;
  matchQuestionToTopic : jsstring -> option Topic.t;
  motivationalTips : list jsstring;
  searchTopics : jsstring -> list Topic.t;
  studyRoadmap : list jsstring;
  topics : list Topic.t
}.

(** ** The state of the page *)

Inductive HistoryRole := system | user | assistant.

Record HistoryEntry := {
  id : jsstring;
  role : HistoryRole;
  content : list jsstring
}.

(** The one pending state there is, [type: "quiz"]; [null] is [None]. *)
Record Pending := {
  question : QuizQuestion.t;
  attempts : N;
  revealedHint : bool
}.

Definition PendingState := option Pending.

Record SessionStats := {
  answered : N;
  correct : N;
  streak : N
}.

(** What [HomePage] keeps between events: its five [useState] cells and
    [historyIndexRef]. *)
Record Session := {
  history : list HistoryEntry;
  inputValue : jsstring;
  pendingState : PendingState;
  sessionStats : SessionStats;
  commandHistory : list jsstring;
  historyIndexRef : option Z
}.

(** What one submission takes from outside: the two identifiers [makeId]
    draws from the clock and the random source, for the entry of the user and
    for the reply, and the value [Math.random()] returns to the handlers. *)
Record Env := {
  userEntryId : jsstring;
  replyEntryId : jsstring;
  random : number
}.

Definition initialHistory : list HistoryEntry :=
  [ {| id := lit "boot-message";
       role := system;
       content :=
         [ lit "Inicializando Terminal Mentor v1.0 ...";
           lit "🛡️ Asistente interactivo para aprender y practicar ciberseguridad.";
           lit "Escribe `help` para ver comandos disponibles o `topics` para explorar rutas de estudio." ] |} ].

Definition helpCards : list (jsstring * jsstring) :=
  [ (lit "help", lit "Muestra los comandos disponibles.");
    (lit "topics", lit "Lista temáticas principales y resumen.");
    (lit "lesson <tema>", lit "Explica un tema en profundidad.");
    (lit "resources [tema]", lit "Recursos recomendados por tema.");
    (lit "labs [tema]", lit "Laboratorios prácticos guiados.");
    (lit "quiz [tema]", lit "Pregunta de repaso con opción a pista.");
    (lit "glossary <término>", lit "Definición rápida de conceptos.");
    (lit "question <tu duda>", lit "Consulta libre con contexto.");
    (lit "search <palabra>", lit "Busca temas relacionados.");
    (lit "roadmap", lit "Ruta de aprendizaje sugerida.");
    (lit "suggest", lit "Actividad del día para practicar.");
    (lit "status", lit "Estadísticas de sesión y motivación.");
    (lit "clear", lit "Limpia el historial de la terminal.") ].

Definition MAX_HISTORY_COMMANDS : nat := 30.

(** The state of the first render. *)
Definition initialSession : Session :=
  {| history := initialHistory;
     inputValue := [];
     pendingState := None;
     sessionStats := {| answered := 0; correct := 0; streak := 0 |};
     commandHistory := [];
     historyIndexRef := None |}.

(** *** The setters

    A setter queues an update and React applies the queue in order, so a
    handler is a composition of updates on the state; what a handler reads
    ([pendingState], [sessionStats]) is the state of the render it was made
    in, which the handlers below take as a separate argument [snap]. *)

Definition setHistory (f : list HistoryEntry -> list HistoryEntry)
    (st : Session) : Session :=
  {| history := f (history st);
     inputValue := inputValue st;
     pendingState := pendingState st;
     sessionStats := sessionStats st;
     commandHistory := commandHistory st;
     historyIndexRef := historyIndexRef st |}.

Definition setInputValue (v : jsstring) (st : Session) : Session :=
  {| history := history st;
     inputValue := v;
     pendingState := pendingState st;
     sessionStats := sessionStats st;
     commandHistory := commandHistory st;
     historyIndexRef := historyIndexRef st |}.

Definition setPendingState (p : PendingState) (st : Session) : Session :=
  {| history := history st;
     inputValue := inputValue st;
     pendingState := p;
     sessionStats := sessionStats st;
     commandHistory := commandHistory st;
     historyIndexRef := historyIndexRef st |}.

Definition setSessionStats (s : SessionStats) (st : Session) : Session :=
  {| history := history st;
     inputValue := inputValue st;
     pendingState := pendingState st;
     sessionStats := s;
     commandHistory := commandHistory st;
     historyIndexRef := historyIndexRef st |}.

Definition setCommandHistory (f : list jsstring -> list jsstring)
    (st : Session) : Session :=
  {| history := history st;
     inputValue := inputValue st;
     pendingState := pendingState st;
     sessionStats := sessionStats st;
     commandHistory := f (commandHistory st);
     historyIndexRef := historyIndexRef st |}.

Definition setHistoryIndex (i : option Z) (st : Session) : Session :=
  {| history := history st;
     inputValue := inputValue st;
     pendingState := pendingState st;
     sessionStats := sessionStats st;
     commandHistory := commandHistory st;
     historyIndexRef := i |}.

(** ** Formatting helpers *)

Fixpoint mapi_from {A B} (i : N) (f : A -> N -> B) (l : list A) : list B :=
  match l with
  | [] => []
  | x :: r => f x i :: mapi_from (i + 1) f r
  end.

Definition formatList (title : jsstring) (items : list jsstring) : list jsstring :=
  (lit "# " ++ title)
  :: mapi_from 0 (fun item index => lit "  " ++ toString (index + 1) ++ lit ". " ++ item) items.

Definition formatBullets (items : list jsstring) : list jsstring :=
  map (fun item => lit "• " ++ item) items.

Definition normalizeInput (value : jsstring) : jsstring := trim value.

Definition addEntry (newId : jsstring) (r : HistoryRole) (lines : list jsstring)
    (st : Session) : Session :=
  setHistory (fun prev => prev ++ [ {| id := newId; role := r; content := lines |} ]) st.

Definition showAssistant (newId : jsstring) (lines : list jsstring)
    (st : Session) : Session :=
  addEntry newId assistant lines st.

Definition resetTerminal (newId : jsstring) (st : Session) : Session :=
  let st := setHistory (fun _ => initialHistory) st in
  let st := setPendingState None st in
  showAssistant newId [lit "Pantalla limpia. Continuemos."] st.

(** A number inside a template: an integer in decimal. *)
Definition showNumber (x : option Z) : jsstring :=
  match x with Some z => toStringZ z | None => lit "NaN" end.

(** [const accuracy] of [buildSessionStatus]. *)
Definition accuracy (stats : SessionStats) : option Z :=
  if (answered stats =? 0)%N then Some 0%Z
  else Math_round (fmul (fdiv (ofN (correct stats)) (ofN (answered stats))) (ofN 100)).

Definition buildSessionStatus (stats : SessionStats) : jsstring :=
  let accuracy := accuracy stats in
  lit "📊 Sesión | Resueltas: " ++ toString (answered stats)
  ++ lit " | Correctas: " ++ toString (correct stats)
  ++ lit " | Precisión: " ++ showNumber accuracy
  ++ lit "% | Racha: " ++ toString (streak stats).

(** ** The handlers of [HomePage] *)

Section HomePage.

Variable cm : CaseMapping.
Variable K : Knowledge.

(** [case "a": case "b":] of a [switch] on a string. *)
Definition one_of (key : jsstring) (labels : list string) : bool :=
  existsb (fun l => str_eqb key (lit l)) labels.

(** *** The quiz state machine *)

(** [const normalized = value.trim().toLowerCase()] *)
Definition normalized (value : jsstring) : jsstring := toLowerCase cm (trim value).

Definition handleQuizAnswer (env : Env) (snap : Session) (value : jsstring)
    (st : Session) : Session :=
  match pendingState snap with
  | None => st
  | Some pending =>
    let normalized := normalized value in
    let question := question pending in
    if str_eqb normalized (lit "hint") || str_eqb normalized (lit "pista") then
      if revealedHint pending then
        showAssistant (replyEntryId env)
          [lit "⚠️ Ya mostré una pista para esta pregunta. Intenta una respuesta."] st
      else
        let st :=
          setPendingState
            (Some {| question := question;
                     attempts := attempts pending;
                     revealedHint := true |}) st in
        showAssistant (replyEntryId env)
          [lit "Pista: "
           ++ slice0 (QuizQuestion.answer question)
                (ceil_half (List.length (QuizQuestion.answer question)))
           ++ lit "..."] st
    else if str_eqb normalized (lit "skip") || str_eqb normalized (lit "omitir") then
      let updatedStats :=
        {| answered := answered (sessionStats snap) + 1;
           correct := correct (sessionStats snap);
           streak := 0 |} in
      let st :=
        showAssistant (replyEntryId env)
          [lit "Pregunta omitida. Respuesta correcta: " ++ QuizQuestion.answer question;
           lit "Explicación: " ++ QuizQuestion.explanation question;
           buildSessionStatus updatedStats] st in
      let st := setPendingState None st in
      setSessionStats updatedStats st
    else
      let isCorrect :=
        str_eqb normalized (toLowerCase cm (QuizQuestion.answer question)) in
      if isCorrect then
        let updatedStats :=
          {| answered := answered (sessionStats snap) + 1;
             correct := correct (sessionStats snap) + 1;
             streak := streak (sessionStats snap) + 1 |} in
        let st :=
          showAssistant (replyEntryId env)
            [lit "✅ ¡Correcto!";
             lit "Explicación: " ++ QuizQuestion.explanation question;
             buildSessionStatus updatedStats;
             lit "Escribe `quiz` para otra pregunta o explora con `lesson <tema>`."] st in
        let st := setPendingState None st in
        setSessionStats updatedStats st
      else
        let attempts := (attempts pending + 1)%N in
        if (2 <=? attempts)%N then
          let updatedStats :=
            {| answered := answered (sessionStats snap) + 1;
               correct := correct (sessionStats snap);
               streak := 0 |} in
          let st :=
            showAssistant (replyEntryId env)
              [lit "❌ Respuesta incorrecta.";
               lit "La respuesta correcta es: " ++ QuizQuestion.answer question;
               lit "Explicación: " ++ QuizQuestion.explanation question;
               buildSessionStatus updatedStats;
               lit "Puedes escribir `quiz` para intentar otra o `lesson <tema>` para repasar."] st in
          let st := setPendingState None st in
          setSessionStats updatedStats st
        else
          let st :=
            showAssistant (replyEntryId env)
              [lit "Respuesta incorrecta. Puedes intentar nuevamente, pedir `hint` o escribir `skip`."] st in
          setPendingState
            (Some {| question := question;
                     attempts := attempts;
                     revealedHint := revealedHint pending |}) st
  end.

(** *** What the commands print *)

Definition summarizeTopic (topic : Topic.t) : list jsstring :=
  [lit "== " ++ toUpperCase cm (Topic.title topic) ++ lit " ==";
   Topic.summary topic;
   lit "";
   lit "Fundamentos clave:"]
  ++ formatBullets (Topic.fundamentals topic)
  ++ [lit ""; lit "Nivel intermedio/avanzado:"]
  ++ formatBullets (Topic.advanced topic)
  ++ [lit ""; lit "Quick wins:"]
  ++ formatBullets (Topic.quickWins topic)
  ++ [lit ""; lit "Alertas tempranas:"]
  ++ formatBullets (Topic.warningSigns topic)
  ++ [lit ""; lit "Ruta sugerida:"]
  ++ formatBullets (Topic.studyPath topic).

Definition formatResources (topic : option Topic.t) : list jsstring :=
  match topic with
  | None =>
    lit "🔗 Recursos recomendados por temática:"
    :: flat_map
         (fun item =>
            (lit "> " ++ Topic.title item)
            :: map (fun resource =>
                      lit "  - " ++ Resource.title resource ++ lit ": "
                      ++ Resource.url resource)
                 (Topic.resources item))
         (topics K)
  | Some topic =>
    (lit "Recursos para " ++ Topic.title topic ++ lit ":")
    :: map (fun resource =>
              lit "- " ++ Resource.title resource ++ lit ": "
              ++ Resource.url resource ++ lit " ("
              ++ Resource.description resource ++ lit ")")
         (Topic.resources topic)
  end.

Definition formatLabs (topic : option Topic.t) : list jsstring :=
  match topic with
  | None =>
    lit "🧪 Laboratorios disponibles:"
    :: flat_map
         (fun item =>
            map (fun lab =>
                   lit "[" ++ Topic.title item ++ lit "] " ++ Lab.title lab
                   ++ lit " (" ++ Lab.difficulty lab ++ lit " · " ++ Lab.time lab
                   ++ lit ") -> " ++ Lab.goal lab)
              (Topic.labs item))
         (topics K)
    ++ [lit "Usa `labs <tema>` para ver pasos detallados."]
  | Some topic =>
    match Topic.labs topic with
    | [] =>
      [lit "Aún no hay laboratorios documentados para " ++ Topic.title topic ++ lit "."]
    | lab :: _ =>
      [lit "🧪 " ++ Lab.title lab ++ lit " | Dificultad: " ++ Lab.difficulty lab
       ++ lit " | Duración: " ++ Lab.time lab;
       lit "Objetivo: " ++ Lab.goal lab;
       lit "";
       lit "Pasos:"]
      ++ formatBullets (Lab.steps lab)
      ++ [lit ""; lit "Checklist de éxito:"]
      ++ formatBullets (Lab.checklist lab)
    end
  end.

(** [arr[Math.floor(Math.random() * arr.length)]] *)
Definition pickRandom {A} (rnd : number) (arr : list A) : option A :=
  index arr (Math_floor (fmul rnd (ofN (N.of_nat (List.length arr))))).

Definition pickQuizQuestion (rnd : number) (topicAlias : jsstring)
    : option QuizQuestion.t :=
  let fromAll :=
    let questions := getAllQuizQuestions K in
    match questions with
    | [] => None
    | _ :: _ => pickRandom rnd questions
    end in
  if truthy topicAlias then
    match findTopicByAlias K topicAlias with
    | Some matchingTopic =>
      match Topic.quiz matchingTopic with
      | [] => fromAll
      | _ :: _ => pickRandom rnd (Topic.quiz matchingTopic)
      end
    | None => fromAll
    end
  else fromAll.

(** [None] when [topics] is empty and nothing matches: reading [title] of
    [undefined] throws. *)
Definition answerNaturalQuestion (query : jsstring) : option (list jsstring) :=
  let topic :=
    match matchQuestionToTopic K query with
    | Some t => Some t
    | None => nth_error (topics K) 0
    end in
  match topic with
  | None => None
  | Some topic =>
    Some ([lit "Tema sugerido: " ++ Topic.title topic;
           lit "Resumen: " ++ Topic.summary topic;
           lit "";
           lit "Puntos clave:"]
          ++ formatBullets (firstn 3 (Topic.fundamentals topic))
          ++ [lit "";
              lit "Recomendación:";
              lit "• Revisa la lección con `lesson " ++ Topic.id topic ++ lit "`.";
              lit "• Programa un laboratorio práctico con `labs " ++ Topic.id topic ++ lit "`."])
  end.

(** *** The command line

    [const [command, ...argsParts] = trimmed.split(" ")], then
    [command.toLowerCase()] and [argsParts.join(" ").trim()]. *)

Definition commandKey (trimmed : jsstring) : jsstring :=
  toLowerCase cm (hd [] (split 32%N trimmed)).

Definition argString (trimmed : jsstring) : jsstring :=
  trim (join (lit " ") (tl (split 32%N trimmed))).

Definition handleCommand (env : Env) (snap : Session) (rawInput : jsstring)
    (st : Session) : Session :=
  let trimmed := normalizeInput rawInput in
  if negb (truthy trimmed) then st
  else
    let commandKey := commandKey trimmed in
    let argString := argString trimmed in
    let reply := showAssistant (replyEntryId env) in
    if one_of commandKey ["help"; "?"] then
      reply
        (lit "Comandos disponibles:"
         :: map (fun card => padEnd 18 (fst card) ++ lit " - " ++ snd card) helpCards)
        st
    else if one_of commandKey ["topics"] then
      reply
        (lit "Temas activos:"
         :: map (fun topic =>
                   padEnd 12 (Topic.id topic) ++ lit " | " ++ Topic.title topic
                   ++ lit " -> " ++ Topic.summary topic)
              (topics K)
         ++ [lit "Explora detalles con `lesson <tema>`."])
        st
    else if one_of commandKey ["lesson"; "tema"; "topic"] then
      if negb (truthy argString) then
        reply [lit "Debes indicar un tema. Ejemplo: `lesson redes`"] st
      else
        match findTopicByAlias K argString with
        | None =>
          let related := searchTopics K argString in
          match related with
          | [] =>
            reply
              [lit "No encontré un tema llamado " ++ dquote ++ argString ++ dquote
               ++ lit ". Usa `topics` para ver opciones."] st
          | _ :: _ =>
            reply
              (lit "No encontré coincidencia exacta. ¿Quizás buscas alguno de estos?"
               :: map (fun item => lit "- " ++ Topic.id item ++ lit ": " ++ Topic.title item)
                    related)
              st
          end
        | Some topic => reply (summarizeTopic topic) st
        end
    else if one_of commandKey ["resources"; "recursos"] then
      let topic := if truthy argString then findTopicByAlias K argString else None in
      reply (formatResources topic) st
    else if one_of commandKey ["labs"; "lab"] then
      let topic := if truthy argString then findTopicByAlias K argString else None in
      reply (formatLabs topic) st
    else if one_of commandKey ["quiz"; "reto"] then
      match pickQuizQuestion (random env) argString with
      | None => reply [lit "No hay preguntas disponibles por ahora."] st
      | Some question =>
        let st :=
          reply
            ([lit "Pregunta: " ++ QuizQuestion.prompt question]
             ++ match QuizQuestion.choices question with
                | Some choices => [lit "Opciones: " ++ join (lit " | ") choices]
                | None => []
                end
             ++ [lit "Responde, pide `hint` para una pista o escribe `skip` para saltar."])
            st in
        setPendingState
          (Some {| question := question; attempts := 0; revealedHint := false |}) st
      end
    else if one_of commandKey ["glossary"; "glosario"] then
      if negb (truthy argString) then
        reply
          (map (fun entry =>
                  GlossaryEntry.term entry ++ lit ": " ++ GlossaryEntry.definition entry)
             (glossary K))
          st
      else
        match lookupGlossary K argString with
        | None =>
          reply
            [lit "No encontré " ++ dquote ++ argString ++ dquote
             ++ lit ". Usa `glossary` para listar conceptos."] st
        | Some entry =>
          reply
            [GlossaryEntry.term entry ++ lit ": " ++ GlossaryEntry.definition entry;
             lit "Contexto: " ++ GlossaryEntry.context entry] st
        end
    else if one_of commandKey ["search"; "buscar"] then
      if negb (truthy argString) then
        reply [lit "Incluye un término. Ejemplo: `search mitre`"] st
      else
        let results := searchTopics K argString in
        match results with
        | [] =>
          reply
            [lit "No hay coincidencias para " ++ dquote ++ argString ++ dquote
             ++ lit ". Intenta con otro término."] st
        | _ :: _ =>
          reply
            ((lit "Resultados (" ++ toString (N.of_nat (List.length results)) ++ lit "):")
             :: map (fun result =>
                       Topic.id result ++ lit " -> " ++ Topic.title result
                       ++ lit " | " ++ Topic.summary result)
                  results)
            st
        end
    else if one_of commandKey ["roadmap"; "ruta"] then
      reply (formatList (lit "Ruta sugerida de 6 semanas") (studyRoadmap K)) st
    else if one_of commandKey ["suggest"; "actividad"] then
      let suggestion := pickRandom (random env) (dailySuggestions K) in
      reply
        [lit "Actividad recomendada: " ++ show suggestion;
         lit "Comparte conclusiones en tu bitácora personal."] st
    else if one_of commandKey ["status"] then
      let motivation := pickRandom (random env) (motivationalTips K) in
      reply
        [buildSessionStatus (sessionStats snap);
         lit "💡 " ++ show motivation] st
    else if one_of commandKey ["question"; "pregunta"] then
      if negb (truthy argString) then
        reply [lit "Formula tu duda. Ejemplo: `question diferencia entre ids e ips`."] st
      else
        match answerNaturalQuestion argString with
        | Some lines => reply lines st
        | None => st
        end
    else if one_of commandKey ["clear"; "cls"] then
      resetTerminal (replyEntryId env) st
    else
      reply
        [lit "Comando desconocido: " ++ commandKey;
         lit "Escribe `help` para ver opciones disponibles."] st.

(** *** Submitting a line, and the arrow keys *)

Definition handleSubmit (env : Env) (st0 : Session) : Session :=
  let normalized := normalizeInput (inputValue st0) in
  if negb (truthy normalized) then st0
  else
    let st := addEntry (userEntryId env) user [normalized] st0 in
    let st :=
      setCommandHistory
        (fun prev =>
           let updated :=
             normalized :: filter (fun item => negb (str_eqb item normalized)) prev in
           firstn MAX_HISTORY_COMMANDS updated)
        st in
    let st := setHistoryIndex None st in
    let st := setInputValue [] st in
    match pendingState st0 with
    | Some _ => handleQuizAnswer env st0 normalized st
    | None => handleCommand env st0 normalized st
    end.

(** [commandHistory[i]], [undefined] outside the array. *)
Definition recall (l : list jsstring) (i : Z) : option jsstring :=
  if (i <? 0)%Z then None else nth_error l (Z.to_nat i).

Inductive Key := ArrowUp | ArrowDown | OtherKey.

Definition handleKeyDown (key : Key) (st : Session) : Session :=
  match key with
  | ArrowUp =>
    let current := historyIndexRef st in
    let nextIndex :=
      match current with
      | None => 0%Z
      | Some c => Z.min (c + 1) (Z.of_nat (List.length (commandHistory st)) - 1)
      end in
    match recall (commandHistory st) nextIndex with
    | Some nextValue =>
      if truthy nextValue then
        setHistoryIndex (Some nextIndex) (setInputValue nextValue st)
      else st
    | None => st
    end
  | ArrowDown =>
    match historyIndexRef st with
    | None => st
    | Some current =>
      if (current <=? 0)%Z then setHistoryIndex None (setInputValue [] st)
      else
        let nextIndex := (current - 1)%Z in
        let st :=
          match recall (commandHistory st) nextIndex with
          | Some nextValue =>
            if truthy nextValue then setInputValue nextValue st else st
          | None => st
          end in
        setHistoryIndex (Some nextIndex) st
    end
  | OtherKey => st
  end.

(** *** The events of a session *)

Inductive Event :=
| Change (value : jsstring)
| Submit (env : Env)
| KeyDown (key : Key).

Definition step (st : Session) (e : Event) : Session :=
  match e with
  | Change value => setInputValue value st
  | Submit env => handleSubmit env st
  | KeyDown key => handleKeyDown key st
  end.

Definition run (events : list Event) (st : Session) : Session :=
  fold_left step events st.

(** Typing a line and pressing enter. *)
Definition submitLine (env : Env) (line : jsstring) (st : Session) : Session :=
  handleSubmit env (setInputValue line st).

Definition submitLines (lines : list (Env * jsstring)) (st : Session) : Session :=
  fold_left (fun st l => submitLine (fst l) (snd l) st) lines st.

End HomePage.

(** ** The command line as the specification words it

    The specification splits the trimmed line "on the first whitespace run":
    the command is what comes before the first white space character, the
    argument what comes after it, trimmed. *)

Definition spec_command (cm : CaseMapping) (trimmed : jsstring) : jsstring :=
  toLowerCase cm (takeWhile (fun c => negb (isWhiteSpace c)) trimmed).

Definition spec_argument (trimmed : jsstring) : jsstring :=
  trim (dropWhile (fun c => negb (isWhiteSpace c)) trimmed).

(** The command line as the page reads it: the first space, U+0020, ends the
    command. *)
Definition notSpace (c : code_unit) : bool := negb (c =? 32)%N.

(** ** The recall buffer as the specification words it *)

(** [item !== line], the filter of the recall buffer. *)
Definition other_than (x : jsstring) : jsstring -> bool :=
  fun item => negb (str_eqb item x).

(** The distinct lines of a list, each kept where it comes first. *)
Fixpoint distinct (l : list jsstring) : list jsstring :=
  match l with
  | [] => []
  | x :: r => x :: filter (other_than x) (distinct r)
  end.

(** The lines a sequence of submissions leaves a trace of, in the order they
    were typed: a line counts when it is not blank, and counts trimmed. *)
Definition accepted (lines : list (Env * jsstring)) : list jsstring :=
  filter truthy (map (fun l => trim (snd l)) lines).

(** ** The accuracy against the exact quotient

    [z] is a nearest integer to [100 * c / a], and a percentage. *)
Definition nearest_percent (c a : N) (z : Z) : bool :=
  ((0 <=? z) && (z <=? 100)
   && (2 * Z.abs (100 * Z.of_N c - Z.of_N a * z) <=? Z.of_N a))%Z.

Definition accuracy_nearest (c a : N) : bool :=
  match accuracy {| answered := a; correct := c; streak := 0 |} with
  | Some z => nearest_percent c a z
  | None => false
  end.

Definition upto (n : N) : list N := map N.of_nat (seq 0 (S (N.to_nat n))).

(** Every session of at most [bound] answers, tried one by one. *)
Definition accuracy_checked (bound : N) : bool :=
  forallb (fun a => forallb (fun c => accuracy_nearest c a) (upto a)) (upto bound).

(** ** Entries and the updates of an accepted line

    What [handleSubmit] queues for every line it accepts, before the line
    goes to the quiz or to the dispatcher. *)

Definition userEntry (env : Env) (line : jsstring) : HistoryEntry :=
  {| id := userEntryId env; role := user; content := [line] |}.

Definition replyEntry (env : Env) (lines : list jsstring) : HistoryEntry :=
  {| id := replyEntryId env; role := assistant; content := lines |}.

Definition remember (line : jsstring) (prev : list jsstring) : list jsstring :=
  firstn MAX_HISTORY_COMMANDS
    (line :: filter (fun item => negb (str_eqb item line)) prev).

Definition accept (env : Env) (line : jsstring) (st : Session) : Session :=
  setInputValue []
    (setHistoryIndex None
       (setCommandHistory (remember line)
          (addEntry (userEntryId env) user [line] st))).

(** ** A small content store, to run the page on *)

Definition demoCase : CaseMapping :=
  {| lowerUnicode := fun s => s; upperUnicode := fun s => s |}.

Definition demoQuestion : QuizQuestion.t :=
  {| QuizQuestion.prompt := lit "¿Qué protocolo ofrece entrega ordenada y fiable?";
     QuizQuestion.answer := lit "TCP";
     QuizQuestion.explanation := lit "TCP numera los segmentos y retransmite los perdidos.";
     QuizQuestion.choices := Some [lit "TCP"; lit "UDP"; lit "ICMP"] |}.

Definition demoTopic : Topic.t :=
  {| Topic.id := lit "redes";
     Topic.title := lit "Redes";
     Topic.summary := lit "Protocolos, segmentación y monitoreo.";
     Topic.fundamentals := [lit "Modelo OSI"; lit "TCP/IP"];
     Topic.advanced := [lit "Zero trust"];
     Topic.quickWins := [lit "Cierra puertos"];
     Topic.warningSigns := [lit "Tráfico inusual"];
     Topic.studyPath := [lit "Wireshark"];
     Topic.resources :=
       [ {| Resource.title := lit "Wireshark";
            Resource.url := lit "https://www.wireshark.org";
            Resource.description := lit "Analizador de tráfico" |} ];
     Topic.labs :=
       [ {| Lab.title := lit "Captura de tráfico";
            Lab.difficulty := lit "Básico";
            Lab.time := lit "30 min";
            Lab.goal := lit "Identificar un handshake";
            Lab.steps := [lit "Abre Wireshark"];
            Lab.checklist := [lit "Viste SYN, SYN-ACK, ACK"] |} ];
     Topic.quiz := [demoQuestion] |}.

Definition demoKnowledge : Knowledge :=
  {| dailySuggestions := [lit "Revisa los registros de tu router."];
     findTopicByAlias := fun alias =>
       if str_eqb (toLowerCase demoCase (trim alias)) (lit "redes")
       then Some demoTopic else None;
     getAllQuizQuestions := [demoQuestion];
     glossary := [];
     lookupGlossary := fun _ => None;
     matchQuestionToTopic := fun _ => None;
     motivationalTips := [lit "La constancia vence."];
     searchTopics := fun _ => [];
     studyRoadmap := [lit "Semana 1: redes"];
     topics := [demoTopic] |}.

Definition demoEnv : Env :=
  {| userEntryId := lit "u"; replyEntryId := lit "a"; random := ofN 0 |}.

(** The session after [quiz redes]: the demo question is pending. *)
Definition quizActive : Session :=
  submitLine demoCase demoKnowledge demoEnv (lit "quiz redes") initialSession.

(** The same question after one wrong answer, and after a hint. *)
Definition quizSecondTry : Session :=
  submitLine demoCase demoKnowledge demoEnv (lit "udp") quizActive.

Definition quizHinted : Session :=
  submitLine demoCase demoKnowledge demoEnv (lit "hint") quizActive.

(** The session once that question was skipped: five entries of history and
    nothing pending. *)
Definition quizSkipped : Session :=
  submitLine demoCase demoKnowledge demoEnv (lit "skip") quizActive.

(** ** The vocabulary of the dispatcher

    The labels of the [switch] of [handleCommand], one list per [case]
    group, in the order of the source. *)
Definition aliases : list (list string) :=
  [ ["help"; "?"];
    ["topics"];
    ["lesson"; "tema"; "topic"];
    ["resources"; "recursos"];
    ["labs"; "lab"];
    ["quiz"; "reto"];
    ["glossary"; "glosario"];
    ["search"; "buscar"];
    ["roadmap"; "ruta"];
    ["suggest"; "actividad"];
    ["status"];
    ["question"; "pregunta"];
    ["clear"; "cls"] ].

Definition commands : list string := List.concat aliases.

(** ** Notions the properties of a session are stated with *)

(** A question of the content store: one of all the questions, or one of the
    quiz of a topic some alias resolves to. *)
Definition fromCatalog (K : Knowledge) (q : QuizQuestion.t) : Prop :=
  In q (getAllQuizQuestions K)
  \/ exists alias topic,
       findTopicByAlias K alias = Some topic /\ In q (Topic.quiz topic).

(** The pending state of a well-formed session: at most one failed try so
    far, on a question of the store. *)
Definition pending_ok (K : Knowledge) (st : Session) : Prop :=
  match pendingState st with
  | None => True
  | Some p => (attempts p <= 1)%N /\ fromCatalog K (question p)
  end.

(** The recall cursor points into the recall buffer, whose lines are
    trimmed and not empty. *)
Definition cursor_ok (st : Session) : Prop :=
  match historyIndexRef st with
  | None => True
  | Some i => (0 <= i < Z.of_nat (List.length (commandHistory st)))%Z
  end.

Definition recall_ok (st : Session) : Prop :=
  Forall (fun line => line <> [] /\ trim line = line) (commandHistory st).

(** The number of submissions among the events of a session. *)
Fixpoint submissions (events : list Event) : N :=
  match events with
  | [] => 0
  | Submit _ :: r => 1 + submissions r
  | _ :: r => submissions r
  end.

(** Pressing a key [n] times. *)
Definition presses (key : Key) (n : nat) (st : Session) : Session :=
  Nat.iter n (handleKeyDown key) st.

(** The reply of the last exchange: the lines of the last entry. *)
Definition lastReply (st : Session) : list jsstring :=
  content (last (history st) {| id := []; role := system; content := [] |}).

(** A second environment, to tell two submissions apart. *)
Definition demoEnv2 : Env :=
  {| userEntryId := lit "u2"; replyEntryId := lit "a2"; random := ofN 0 |}.

(** The demo session after three commands. *)
Definition threeCommands : Session :=
  submitLines demoCase demoKnowledge
    [(demoEnv, lit "help"); (demoEnv, lit "topics"); (demoEnv, lit "status")]
    initialSession.

(** * Properties *)

Example lit_boot : lit "é🛡 a" = [233; 55357; 57057; 32; 97]%N.
Proof. reflexivity. Qed.

Example split_spaces :
  split 32%N (lit "a  b c") = [lit "a"; lit ""; lit "b"; lit "c"].
Proof. reflexivity. Qed.

Example trim_spaces : trim (lit "  a b  ") = lit "a b".
Proof. reflexivity. Qed.

Example quizActive_pending :
  pendingState quizActive
  = Some {| question := demoQuestion; attempts := 0; revealedHint := false |}.
Proof. reflexivity. Qed.

Example quizSecondTry_pending :
  pendingState quizSecondTry
  = Some {| question := demoQuestion; attempts := 1; revealedHint := false |}.
Proof. reflexivity. Qed.

Example quizHinted_pending :
  pendingState quizHinted
  = Some {| question := demoQuestion; attempts := 0; revealedHint := true |}.
Proof. reflexivity. Qed.

(** The accuracy is computed in binary64: one correct answer in eight is
    12.5, which rounds up, and 29 in 200 is a little under 14.5. *)
Example accuracy_1_8 :
  Math_round (fmul (fdiv (ofN 1) (ofN 8)) (ofN 100)) = Some 13%Z.
Proof. reflexivity. Qed.

Example accuracy_29_200 :
  Math_round (fmul (fdiv (ofN 29) (ofN 200)) (ofN 100)) = Some 14%Z.
Proof. reflexivity. Qed.

(** ** Strings *)

Lemma str_eqb_refl (a : jsstring) : str_eqb a a = true.
Proof.
  induction a as [|x a IH]; simpl; [reflexivity|].
  rewrite N.eqb_refl. exact IH.
Qed.

Lemma str_eqb_eq (a b : jsstring) : str_eqb a b = true <-> a = b.
Proof.
  split.
  - revert b. induction a as [|x a IH]; destruct b as [|y b]; simpl; try discriminate.
    + reflexivity.
    + intros H. apply andb_true_iff in H. destruct H as [Hx Hr].
      apply N.eqb_eq in Hx. subst y. f_equal. apply IH. exact Hr.
  - intros ->. apply str_eqb_refl.
Qed.

Lemma str_eqb_neq (a b : jsstring) : str_eqb a b = false <-> a <> b.
Proof.
  split.
  - intros H E. apply str_eqb_eq in E. congruence.
  - intros H. destruct (str_eqb a b) eqn:E; [|reflexivity].
    apply str_eqb_eq in E. contradiction.
Qed.

Lemma truthy_true (s : jsstring) : truthy s = true <-> s <> [].
Proof. destruct s; simpl; split; congruence. Qed.

Lemma dropWhile_snoc {A} (p : A -> bool) (l : list A) (x : A) :
  p x = false -> dropWhile p (l ++ [x]) = dropWhile p l ++ [x].
Proof.
  intros Hx. induction l as [|y l IH]; simpl.
  - rewrite Hx. reflexivity.
  - destruct (p y); [exact IH | reflexivity].
Qed.

Lemma dropWhile_idem {A} (p : A -> bool) (l : list A) :
  dropWhile p (dropWhile p l) = dropWhile p l.
Proof.
  induction l as [|y l IH]; simpl; [reflexivity|].
  destruct (p y) eqn:E; [exact IH|]. simpl. rewrite E. reflexivity.
Qed.

Lemma dropWhile_head {A} (p : A -> bool) (l : list A) :
  dropWhile p l = [] \/ exists x r, dropWhile p l = x :: r /\ p x = false.
Proof.
  induction l as [|y l IH]; simpl; [left; reflexivity|].
  destruct (p y) eqn:E; [exact IH|]. right. exists y, l. split; [reflexivity | exact E].
Qed.

Lemma trimEnd_cons (x : code_unit) (r : jsstring) :
  isWhiteSpace x = false -> trimEnd (x :: r) = x :: trimEnd r.
Proof.
  intros Hx. unfold trimEnd. simpl rev.
  rewrite (dropWhile_snoc _ _ _ Hx), rev_app_distr. reflexivity.
Qed.

Lemma trimEnd_idem (s : jsstring) : trimEnd (trimEnd s) = trimEnd s.
Proof.
  unfold trimEnd. rewrite rev_involutive, dropWhile_idem. reflexivity.
Qed.

(** What [trim] returns is empty or starts with a character that is not white
    space. *)
Lemma trim_head (s : jsstring) :
  trim s = [] \/ exists x r, trim s = x :: r /\ isWhiteSpace x = false.
Proof.
  unfold trim, trimStart.
  destruct (dropWhile_head isWhiteSpace s) as [E | (x & r & E & Hx)]; rewrite E.
  - left. reflexivity.
  - right. exists x, (trimEnd r). split; [apply trimEnd_cons; exact Hx | exact Hx].
Qed.

Lemma trim_idem (s : jsstring) : trim (trim s) = trim s.
Proof.
  destruct (trim_head s) as [E | (x & r & E & Hx)].
  - rewrite E. reflexivity.
  - unfold trim at 1. unfold trimStart. rewrite E. simpl dropWhile. rewrite Hx.
    rewrite <- E. unfold trim. apply trimEnd_idem.
Qed.

Lemma split_nonempty (sep : code_unit) (s : jsstring) :
  exists w ws, split sep s = w :: ws.
Proof.
  induction s as [|c r IH]; simpl.
  - eauto.
  - destruct (c =? sep)%N; [eauto|].
    destruct IH as (w & ws & E). rewrite E. eauto.
Qed.

Lemma join_split (sep : code_unit) (s : jsstring) :
  join [sep] (split sep s) = s.
Proof.
  induction s as [|c r IH]; simpl; [reflexivity|].
  destruct (split_nonempty sep r) as (w & ws & E).
  destruct (c =? sep)%N eqn:Ec.
  - apply N.eqb_eq in Ec. subst c. rewrite E in *. simpl. simpl in IH.
    rewrite IH. reflexivity.
  - rewrite E in *. destruct ws as [|w' ws]; simpl in *.
    + rewrite IH. reflexivity.
    + rewrite <- IH. reflexivity.
Qed.

(** The first piece of [split(" ")] is the text before the first space, and
    the other pieces joined by spaces are the text after it. *)
Lemma split_hd (s : jsstring) :
  hd [] (split 32%N s) = takeWhile notSpace s.
Proof.
  induction s as [|c r IH]; simpl; [reflexivity|].
  unfold notSpace at 1. destruct (c =? 32)%N; simpl; [reflexivity|].
  destruct (split_nonempty 32%N r) as (w & ws & E). rewrite E in *.
  simpl in *. rewrite IH. reflexivity.
Qed.

Lemma split_tl (s : jsstring) :
  join (lit " ") (tl (split 32%N s)) = tl (dropWhile notSpace s).
Proof.
  change (lit " ") with [32%N].
  induction s as [|c r IH]; simpl; [reflexivity|].
  unfold notSpace at 1. destruct (c =? 32)%N; simpl.
  - apply join_split.
  - destruct (split_nonempty 32%N r) as (w & ws & E). rewrite E in *.
    simpl in *. exact IH.
Qed.

(** [ceil_half n] is the least [k] with [n <= 2 * k]. *)
Lemma ceil_half_spec (n : nat) : (n <= 2 * ceil_half n <= n + 1)%nat.
Proof.
  unfold ceil_half. pose proof (Nat.div2_odd (S n)) as H.
  destruct (Nat.odd (S n)); simpl Nat.b2n in H; lia.
Qed.

(** ** The shape of a submission *)

Section Submission.

Variable cm : CaseMapping.
Variable K : Knowledge.

Lemma handleSubmit_unfold (env : Env) (st : Session) :
  handleSubmit cm K env st
  = let normalized := trim (inputValue st) in
    if negb (truthy normalized) then st
    else match pendingState st with
         | Some _ => handleQuizAnswer cm env st normalized (accept env normalized st)
         | None => handleCommand cm K env st normalized (accept env normalized st)
         end.
Proof. reflexivity. Qed.

Lemma submitLine_blank (env : Env) (line : jsstring) (st : Session) :
  trim line = [] -> submitLine cm K env line st = setInputValue line st.
Proof.
  intros H. unfold submitLine. rewrite handleSubmit_unfold. simpl. rewrite H.
  reflexivity.
Qed.

Lemma submitLine_quiz (env : Env) (line : jsstring) (st : Session) (p : Pending) :
  pendingState st = Some p -> trim line <> [] ->
  submitLine cm K env line st
  = handleQuizAnswer cm env (setInputValue line st) (trim line)
      (accept env (trim line) (setInputValue line st)).
Proof.
  intros Hp Hl. unfold submitLine. rewrite handleSubmit_unfold. simpl.
  apply truthy_true in Hl. rewrite Hl, Hp. reflexivity.
Qed.

Lemma submitLine_command (env : Env) (line : jsstring) (st : Session) :
  pendingState st = None -> trim line <> [] ->
  submitLine cm K env line st
  = handleCommand cm K env (setInputValue line st) (trim line)
      (accept env (trim line) (setInputValue line st)).
Proof.
  intros Hp Hl. unfold submitLine. rewrite handleSubmit_unfold. simpl.
  apply truthy_true in Hl. rewrite Hl, Hp. reflexivity.
Qed.

End Submission.

(** ** The status line *)

Lemma In_upto (c n : N) : (c <= n)%N -> In c (upto n).
Proof.
  intros H. unfold upto. rewrite <- (N2Nat.id c). apply in_map, in_seq. lia.
Qed.

Lemma accuracy_checked_sound (bound a c : N) :
  accuracy_checked bound = true -> (a <= bound)%N -> (c <= a)%N ->
  accuracy_nearest c a = true.
Proof.
  intros H Ha Hc. unfold accuracy_checked in H.
  rewrite forallb_forall in H. specialize (H a (In_upto a bound Ha)).
  rewrite forallb_forall in H. exact (H c (In_upto c a Hc)).
Qed.

Lemma accuracy_checked_100 : accuracy_checked 100 = true.
Proof. vm_compute. reflexivity. Qed.



(** ** The quiz state machine *)

Section Quiz.

Variable cm : CaseMapping.
Variable K : Knowledge.

Ltac enter_quiz Hp Hl :=
  rewrite (submitLine_quiz cm K _ _ _ _ Hp Hl);
  unfold handleQuizAnswer, normalized;
  change (pendingState (setInputValue _ ?s)) with (pendingState s);
  change (sessionStats (setInputValue _ ?s)) with (sessionStats s);
  rewrite Hp, trim_idem.

Ltac decide_token H :=
  match type of H with
  | ?a = ?b => rewrite (proj2 (str_eqb_eq a b) H)
  | ?a <> ?b => rewrite (proj2 (str_eqb_neq a b) H)
  end.


(** C3: a line that is neither a token nor the answer, on the first try,
    leaves the same question pending with [attempts = 1] and the statistics
    as they were; on the second try it closes the round as failed:
    [answered] grows by one, [correct] stays, [streak] is 0, the answer and
    the explanation are printed and no question is pending. *)
Theorem quiz_wrong_answer (env : Env) (st : Session) (p : Pending) (line : jsstring) :
  pendingState st = Some p ->
  trim line <> [] ->
  normalized cm line <> lit "hint" -> normalized cm line <> lit "pista" ->
  normalized cm line <> lit "skip" -> normalized cm line <> lit "omitir" ->
  normalized cm line <> toLowerCase cm (QuizQuestion.answer (question p)) ->
  let st' := submitLine cm K env line st in
  let failed :=
    {| answered := answered (sessionStats st) + 1;
       correct := correct (sessionStats st);
       streak := 0 |} in
  (attempts p = 0%N ->
     pendingState st'
     = Some {| question := question p; attempts := 1;
               revealedHint := revealedHint p |}
     /\ sessionStats st' = sessionStats st
     /\ history st'
        = history st
          ++ [ userEntry env (trim line);
               replyEntry env
                 [ lit "Respuesta incorrecta. Puedes intentar nuevamente, pedir `hint` o escribir `skip`." ] ])
  /\ (attempts p = 1%N ->
        pendingState st' = None
        /\ sessionStats st' = failed
        /\ history st'
           = history st
             ++ [ userEntry env (trim line);
                  replyEntry env
                    [ lit "❌ Respuesta incorrecta.";
                      lit "La respuesta correcta es: " ++ QuizQuestion.answer (question p);
                      lit "Explicación: " ++ QuizQuestion.explanation (question p);
                      buildSessionStatus failed;
                      lit "Puedes escribir `quiz` para intentar otra o `lesson <tema>` para repasar." ] ]).
Proof.
  intros Hp Hl H1 H2 H3 H4 Hne st' failed. subst st'. unfold normalized in *.
  enter_quiz Hp Hl.
  decide_token H1. decide_token H2. decide_token H3. decide_token H4.
  decide_token Hne. cbn [orb].
  split; intros Ha; rewrite Ha; cbn [N.add N.leb N.compare Pos.compare Pos.add Pos.succ];
    repeat split; cbn; rewrite <- app_assoc; reflexivity.
Qed.

(** C4: the first hint request on a question prints the first
    [ceil(length / 2)] characters of the answer followed by three dots and
    sets [revealedHint], the question and [attempts] staying as they are; a
    later request prints the fixed warning and changes neither the pending
    question, nor [attempts], nor [revealedHint], nor the statistics. *)
Theorem quiz_hint (env : Env) (st : Session) (p : Pending) (line : jsstring) :
  pendingState st = Some p ->
  normalized cm line = lit "hint" \/ normalized cm line = lit "pista" ->
  let st' := submitLine cm K env line st in
  let ans := QuizQuestion.answer (question p) in
  (revealedHint p = false ->
     exists k : nat,
       (List.length ans <= 2 * k <= List.length ans + 1)%nat
       /\ history st'
          = history st
            ++ [ userEntry env (trim line);
                 replyEntry env [ lit "Pista: " ++ firstn k ans ++ lit "..." ] ]
       /\ pendingState st'
          = Some {| question := question p; attempts := attempts p;
                    revealedHint := true |}
       /\ sessionStats st' = sessionStats st)
  /\ (revealedHint p = true ->
        history st'
        = history st
          ++ [ userEntry env (trim line);
               replyEntry env
                 [ lit "⚠️ Ya mostré una pista para esta pregunta. Intenta una respuesta." ] ]
        /\ pendingState st' = Some p
        /\ sessionStats st' = sessionStats st).
Proof.
  intros Hp Htok st' ans. subst st'.
  assert (Hl : trim line <> []).
  { intros E. unfold normalized in Htok. rewrite E in Htok.
    destruct Htok as [H | H]; discriminate H. }
  assert (E : str_eqb (normalized cm line) (lit "hint")
              || str_eqb (normalized cm line) (lit "pista") = true).
  { apply orb_true_iff. destruct Htok as [H | H]; [left | right];
      apply str_eqb_eq; exact H. }
  unfold normalized in *. enter_quiz Hp Hl. rewrite E.
  split; intros Hr; rewrite Hr.
  - exists (ceil_half (List.length ans)). split.
    + apply ceil_half_spec.
    + repeat split. cbn. rewrite <- app_assoc. reflexivity.
  - repeat split.
    + cbn. rewrite <- app_assoc. reflexivity.
    + cbn. rewrite Hp. reflexivity.
Qed.

(** C5: a skip token, whatever [attempts] and [revealedHint] are, closes the
    round at once: [answered] grows by one, [correct] stays, [streak] is 0,
    the answer, the explanation and the status line of the new statistics
    are printed, and no question is pending. *)
Theorem quiz_skip (env : Env) (st : Session) (p : Pending) (line : jsstring) :
  pendingState st = Some p ->
  normalized cm line = lit "skip" \/ normalized cm line = lit "omitir" ->
  let st' := submitLine cm K env line st in
  let stats' :=
    {| answered := answered (sessionStats st) + 1;
       correct := correct (sessionStats st);
       streak := 0 |} in
  sessionStats st' = stats'
  /\ pendingState st' = None
  /\ history st'
     = history st
       ++ [ userEntry env (trim line);
            replyEntry env
              [ lit "Pregunta omitida. Respuesta correcta: "
                ++ QuizQuestion.answer (question p);
                lit "Explicación: " ++ QuizQuestion.explanation (question p);
                buildSessionStatus stats' ] ].
Proof.
  intros Hp Htok st' stats'. subst st'. unfold normalized in *.
  assert (Hl : trim line <> []).
  { intros E. rewrite E in Htok. destruct Htok as [H | H]; discriminate H. }
  enter_quiz Hp Hl.
  destruct Htok as [H | H]; rewrite H.
  - change (str_eqb (lit "skip") (lit "hint")) with false.
    change (str_eqb (lit "skip") (lit "pista")) with false.
    change (str_eqb (lit "skip") (lit "skip")) with true.
    cbn [orb]. repeat split. cbn. rewrite <- app_assoc. reflexivity.
  - change (str_eqb (lit "omitir") (lit "hint")) with false.
    change (str_eqb (lit "omitir") (lit "pista")) with false.
    change (str_eqb (lit "omitir") (lit "skip")) with false.
    change (str_eqb (lit "omitir") (lit "omitir")) with true.
    cbn [orb]. repeat split. cbn. rewrite <- app_assoc. reflexivity.
Qed.

End Quiz.

(** Witnesses on the demo session. *)


Lemma quiz_wrong_answer_witness :
  sessionStats (submitLine demoCase demoKnowledge demoEnv (lit "udp") quizSecondTry)
  = {| answered := 1; correct := 0; streak := 0 |}.
Proof.
  refine (proj1 (proj2 (proj2
    (quiz_wrong_answer demoCase demoKnowledge demoEnv quizSecondTry
       {| question := demoQuestion; attempts := 1; revealedHint := false |}
       (lit "udp") _ _ _ _ _ _ _) _)));
    vm_compute; solve [reflexivity | discriminate].
Defined.

Lemma quiz_hint_witness :
  pendingState (submitLine demoCase demoKnowledge demoEnv (lit "Pista") quizHinted)
  = pendingState quizHinted.
Proof.
  refine (proj1 (proj2 (proj2
    (quiz_hint demoCase demoKnowledge demoEnv quizHinted
       {| question := demoQuestion; attempts := 0; revealedHint := true |}
       (lit "Pista") _ _) _))).
  - vm_compute; reflexivity.
  - right. vm_compute; reflexivity.
  - vm_compute; reflexivity.
Defined.

Lemma quiz_skip_witness :
  sessionStats (submitLine demoCase demoKnowledge demoEnv (lit "SKIP") quizHinted)
  = {| answered := 1; correct := 0; streak := 0 |}.
Proof.
  refine (proj1
    (quiz_skip demoCase demoKnowledge demoEnv quizHinted
       {| question := demoQuestion; attempts := 0; revealedHint := true |}
       (lit "SKIP") _ _)).
  - vm_compute; reflexivity.
  - left. vm_compute; reflexivity.
Defined.

(** The demo round: one hint, the first two letters of [TCP]. *)
Example quizHinted_reply :
  last (history quizHinted) (userEntry demoEnv [])
  = replyEntry demoEnv [lit "Pista: TC..."].
Proof. reflexivity. Qed.

(** ** The dispatcher *)

Lemma one_of_In (key : jsstring) (labels : list string) :
  one_of key labels = true -> exists l, In l labels /\ key = lit l.
Proof.
  unfold one_of. intros H. apply existsb_exists in H.
  destruct H as (l & Hin & He). exists l. split; [exact Hin|].
  apply str_eqb_eq. exact He.
Qed.

(** Decides the [case] labels of the [switch] once the command is known. *)
Ltac eval_guards :=
  repeat match goal with
         | |- context [one_of (lit ?k) ?ls] =>
           let b := eval vm_compute in (one_of (lit k) ls) in
           change (one_of (lit k) ls) with b; cbv iota
         end.

Section Dispatcher.

Variable cm : CaseMapping.
Variable K : Knowledge.

Ltac enter_command Ht Hne :=
  unfold handleCommand, normalizeInput; rewrite Ht;
  rewrite (proj2 (truthy_true _) Hne); cbn [negb]; cbv zeta.

Lemma handleCommand_resources (env : Env) (snap st : Session) (t : jsstring) :
  trim t = t -> t <> [] ->
  one_of (commandKey cm t) ["resources"; "recursos"] = true ->
  handleCommand cm K env snap t st
  = showAssistant (replyEntryId env)
      (formatResources K
         (if truthy (argString t) then findTopicByAlias K (argString t) else None))
      st.
Proof.
  intros Ht Hne Hk. enter_command Ht Hne.
  apply one_of_In in Hk. destruct Hk as (l & Hin & Hk). rewrite Hk.
  destruct Hin as [<- | [<- | []]]; eval_guards; reflexivity.
Qed.

Lemma handleCommand_labs (env : Env) (snap st : Session) (t : jsstring) :
  trim t = t -> t <> [] ->
  one_of (commandKey cm t) ["labs"; "lab"] = true ->
  handleCommand cm K env snap t st
  = showAssistant (replyEntryId env)
      (formatLabs K
         (if truthy (argString t) then findTopicByAlias K (argString t) else None))
      st.
Proof.
  intros Ht Hne Hk. enter_command Ht Hne.
  apply one_of_In in Hk. destruct Hk as (l & Hin & Hk). rewrite Hk.
  destruct Hin as [<- | [<- | []]]; eval_guards; reflexivity.
Qed.

Lemma handleCommand_clear (env : Env) (snap st : Session) (t : jsstring) :
  trim t = t -> t <> [] ->
  one_of (commandKey cm t) ["clear"; "cls"] = true ->
  handleCommand cm K env snap t st = resetTerminal (replyEntryId env) st.
Proof.
  intros Ht Hne Hk. enter_command Ht Hne.
  apply one_of_In in Hk. destruct Hk as (l & Hin & Hk). rewrite Hk.
  destruct Hin as [<- | [<- | []]]; eval_guards; reflexivity.
Qed.

(** C1, as the page has it: with no question pending, the line [clear]
    replaces the whole history, whatever its length, by the boot entry
    followed by the confirmation, and leaves no question pending; the
    statistics stay.  (While a question is pending the line is an answer to
    it and does none of this.) *)
Theorem clear_resets_history (env : Env) (st : Session) (line : jsstring) :
  pendingState st = None ->
  trim line = lit "clear" ->
  let st' := submitLine cm K env line st in
  history st'
  = initialHistory ++ [replyEntry env [lit "Pantalla limpia. Continuemos."]]
  /\ pendingState st' = None
  /\ sessionStats st' = sessionStats st.
Proof.
  intros Hp Hl st'. subst st'.
  assert (Hne : trim line <> []) by (rewrite Hl; discriminate).
  rewrite (submitLine_command cm K _ _ _ Hp Hne).
  rewrite handleCommand_clear;
    [ | apply trim_idem | exact Hne | rewrite Hl; reflexivity ].
  repeat split.
Qed.

(** C10: when the argument of [resources] (or [recursos]) or of [labs] (or
    [lab]) names no topic, the reply is the listing across all topics, the
    one the command gives without an argument; there is no not-found
    message.  The listing of resources is the header, then for each topic
    in turn its title line and a line per resource; the listing of labs is
    the header, a line per lab of each topic in turn, and the closing line:
    every topic and resource, and every lab, of the store is in it. *)
Theorem unresolved_topic_lists_all (env : Env) (st : Session) (line : jsstring) :
  pendingState st = None ->
  trim line <> [] ->
  findTopicByAlias K (argString (trim line)) = None ->
  let resourceLine := fun resource =>
    lit "  - " ++ Resource.title resource ++ lit ": " ++ Resource.url resource in
  let labLine := fun item lab =>
    lit "[" ++ Topic.title item ++ lit "] " ++ Lab.title lab
    ++ lit " (" ++ Lab.difficulty lab ++ lit " · " ++ Lab.time lab
    ++ lit ") -> " ++ Lab.goal lab in
  let allResources :=
    lit "🔗 Recursos recomendados por temática:"
    :: flat_map
         (fun item =>
            (lit "> " ++ Topic.title item) :: map resourceLine (Topic.resources item))
         (topics K) in
  let allLabs :=
    lit "🧪 Laboratorios disponibles:"
    :: flat_map (fun item => map (labLine item) (Topic.labs item)) (topics K)
    ++ [lit "Usa `labs <tema>` para ver pasos detallados."] in
  (one_of (commandKey cm (trim line)) ["resources"; "recursos"] = true ->
     history (submitLine cm K env line st)
     = history st ++ [userEntry env (trim line); replyEntry env allResources]
     /\ history (submitLine cm K env (lit "resources") st)
        = history st ++ [userEntry env (lit "resources"); replyEntry env allResources]
     /\ history (submitLine cm K env (lit "recursos") st)
        = history st ++ [userEntry env (lit "recursos"); replyEntry env allResources])
  /\ (one_of (commandKey cm (trim line)) ["labs"; "lab"] = true ->
        history (submitLine cm K env line st)
        = history st ++ [userEntry env (trim line); replyEntry env allLabs]
        /\ history (submitLine cm K env (lit "labs") st)
           = history st ++ [userEntry env (lit "labs"); replyEntry env allLabs]
        /\ history (submitLine cm K env (lit "lab") st)
           = history st ++ [userEntry env (lit "lab"); replyEntry env allLabs])
  /\ (forall topic resource,
        In topic (topics K) -> In resource (Topic.resources topic) ->
        In (lit "> " ++ Topic.title topic) allResources
        /\ In (resourceLine resource) allResources)
  /\ (forall topic lab,
        In topic (topics K) -> In lab (Topic.labs topic) ->
        In (labLine topic lab) allLabs).
Proof.
  intros Hp Hne Hfind resourceLine labLine allResources allLabs.
  assert (Hnone : (if truthy (argString (trim line))
                   then findTopicByAlias K (argString (trim line)) else None) = None).
  { rewrite Hfind. destruct (truthy _); reflexivity. }
  assert (HR : formatResources K None = allResources) by reflexivity.
  assert (HL : formatLabs K None = allLabs) by reflexivity.
  clearbody allResources allLabs.
  split; [|split; [|split]].
  - intros Hk. rewrite <- HR. split; [|split].
    + rewrite (submitLine_command cm K _ _ _ Hp Hne).
      rewrite handleCommand_resources; [ | apply trim_idem | exact Hne | exact Hk ].
      rewrite Hnone. cbn. rewrite <- app_assoc. reflexivity.
    + rewrite (submitLine_command cm K _ (lit "resources") _ Hp); [|discriminate].
      rewrite handleCommand_resources; [ | apply trim_idem | discriminate | reflexivity ].
      cbn. rewrite <- app_assoc. reflexivity.
    + rewrite (submitLine_command cm K _ (lit "recursos") _ Hp); [|discriminate].
      rewrite handleCommand_resources; [ | apply trim_idem | discriminate | reflexivity ].
      cbn. rewrite <- app_assoc. reflexivity.
  - intros Hk. rewrite <- HL. split; [|split].
    + rewrite (submitLine_command cm K _ _ _ Hp Hne).
      rewrite handleCommand_labs; [ | apply trim_idem | exact Hne | exact Hk ].
      rewrite Hnone. cbn. rewrite <- app_assoc. reflexivity.
    + rewrite (submitLine_command cm K _ (lit "labs") _ Hp); [|discriminate].
      rewrite handleCommand_labs; [ | apply trim_idem | discriminate | reflexivity ].
      cbn. rewrite <- app_assoc. reflexivity.
    + rewrite (submitLine_command cm K _ (lit "lab") _ Hp); [|discriminate].
      rewrite handleCommand_labs; [ | apply trim_idem | discriminate | reflexivity ].
      cbn. rewrite <- app_assoc. reflexivity.
  - intros topic resource Ht Hr. rewrite <- HR. unfold formatResources.
    split; right; apply in_flat_map; exists topic; (split; [exact Ht|]).
    + left. reflexivity.
    + right. apply in_map. exact Hr.
  - intros topic lab Ht Hl. rewrite <- HL. unfold formatLabs.
    right. apply in_or_app. left. apply in_flat_map. exists topic.
    split; [exact Ht|]. apply (in_map (labLine topic)). exact Hl.
Qed.

End Dispatcher.

Lemma clear_resets_history_witness :
  history (submitLine demoCase demoKnowledge demoEnv (lit " clear ") quizSkipped)
  = initialHistory ++ [replyEntry demoEnv [lit "Pantalla limpia. Continuemos."]].
Proof.
  refine (proj1
    (clear_resets_history demoCase demoKnowledge demoEnv quizSkipped (lit " clear ")
       _ _));
    vm_compute; reflexivity.
Defined.

Example quizSkipped_history :
  List.length (history quizSkipped) = 5%nat /\ pendingState quizSkipped = None.
Proof. split; reflexivity. Qed.

(** While a question is pending, [clear] is an answer to it: here a first
    wrong answer.  The history grows by two entries and the question stays
    pending. *)
Lemma clear_during_quiz :
  let st' := submitLine demoCase demoKnowledge demoEnv (lit "clear") quizActive in
  pendingState st'
  = Some {| question := demoQuestion; attempts := 1; revealedHint := false |}
  /\ history st'
     = history quizActive
       ++ [ userEntry demoEnv (lit "clear");
            replyEntry demoEnv
              [ lit "Respuesta incorrecta. Puedes intentar nuevamente, pedir `hint` o escribir `skip`." ] ]
  /\ List.length (history st') = 5%nat
  /\ ~ (history st'
        = initialHistory ++ [replyEntry demoEnv [lit "Pantalla limpia. Continuemos."]]
        /\ pendingState st' = None
        /\ sessionStats st' = sessionStats quizActive).
Proof.
  cbv zeta. split; [reflexivity | split; [reflexivity | split; [reflexivity|]]].
  intros (_ & H & _). vm_compute in H. discriminate H.
Qed.

Lemma unresolved_topic_lists_all_witness :
  history (submitLine demoCase demoKnowledge demoEnv (lit "resources nada") initialSession)
  = history initialSession
    ++ [ userEntry demoEnv (trim (lit "resources nada"));
         replyEntry demoEnv
           [ lit "🔗 Recursos recomendados por temática:";
             lit "> Redes";
             lit "  - Wireshark: https://www.wireshark.org" ] ].
Proof.
  assert (Hne : trim (lit "resources nada") <> []) by (vm_compute; discriminate).
  assert (Hfind : findTopicByAlias demoKnowledge (argString (trim (lit "resources nada")))
                  = None) by (vm_compute; reflexivity).
  assert (Hk : one_of (commandKey demoCase (trim (lit "resources nada")))
                 ["resources"; "recursos"] = true) by (vm_compute; reflexivity).
  pose proof (proj1 (proj1
    (unresolved_topic_lists_all demoCase demoKnowledge demoEnv initialSession
       (lit "resources nada") eq_refl Hne Hfind) Hk)) as H.
  match type of H with
  | _ = ?r => transitivity r; [exact H | vm_compute; reflexivity]
  end.
Defined.

Example resources_resolved :
  last (history (submitLine demoCase demoKnowledge demoEnv (lit "resources redes")
                   initialSession)) (userEntry demoEnv [])
  = replyEntry demoEnv
      [ lit "Recursos para Redes:";
        lit "- Wireshark: https://www.wireshark.org (Analizador de tráfico)" ].
Proof. reflexivity. Qed.

(** ** What a handler leaves alone *)

Section Frame.

Variable cm : CaseMapping.
Variable K : Knowledge.

Ltac split_branches :=
  repeat match goal with
         | |- context [if ?b then _ else _] => destruct b
         | |- context [match ?x with Some _ => _ | None => _ end] => destruct x
         | |- context [match ?x with [] => _ | _ :: _ => _ end] => destruct x
         end.

(** No command touches the statistics, the recall buffer or the input. *)
Lemma handleCommand_frame (env : Env) (snap st : Session) (t : jsstring) :
  sessionStats (handleCommand cm K env snap t st) = sessionStats st
  /\ commandHistory (handleCommand cm K env snap t st) = commandHistory st
  /\ inputValue (handleCommand cm K env snap t st) = inputValue st
  /\ historyIndexRef (handleCommand cm K env snap t st) = historyIndexRef st.
Proof.
  unfold handleCommand. cbv zeta.
  generalize (commandKey cm (normalizeInput t)) as key.
  generalize (argString (normalizeInput t)) as arg. intros arg key.
  destruct (negb (truthy (normalizeInput t))); [repeat split|].
  repeat match goal with
         | |- context [one_of key ?ls] => destruct (one_of key ls)
         end;
    split_branches; repeat split.
Qed.

Lemma handleQuizAnswer_frame (env : Env) (snap st : Session) (v : jsstring) :
  commandHistory (handleQuizAnswer cm env snap v st) = commandHistory st
  /\ inputValue (handleQuizAnswer cm env snap v st) = inputValue st
  /\ historyIndexRef (handleQuizAnswer cm env snap v st) = historyIndexRef st.
Proof.
  unfold handleQuizAnswer. cbv zeta. split_branches; repeat split.
Qed.

(** The three things an answer can do to the statistics. *)
Lemma handleQuizAnswer_stats (env : Env) (snap st : Session) (v : jsstring) :
  let s := sessionStats snap in
  let s' := sessionStats (handleQuizAnswer cm env snap v st) in
  s' = sessionStats st
  \/ s' = {| answered := answered s + 1; correct := correct s; streak := 0 |}
  \/ s' = {| answered := answered s + 1; correct := correct s + 1;
             streak := streak s + 1 |}.
Proof.
  unfold handleQuizAnswer. cbv zeta. split_branches; auto.
Qed.

Lemma handleKeyDown_frame (key : Key) (st : Session) :
  sessionStats (handleKeyDown key st) = sessionStats st
  /\ commandHistory (handleKeyDown key st) = commandHistory st
  /\ pendingState (handleKeyDown key st) = pendingState st
  /\ history (handleKeyDown key st) = history st.
Proof.
  unfold handleKeyDown. destruct key; split_branches; repeat split.
Qed.

End Frame.

(** ** The statistics of a session *)

Section Statistics.

Variable cm : CaseMapping.
Variable K : Knowledge.

(** What one submission can do to the statistics. *)
Lemma handleSubmit_stats (env : Env) (st : Session) :
  let s := sessionStats st in
  let s' := sessionStats (handleSubmit cm K env st) in
  s' = s
  \/ s' = {| answered := answered s + 1; correct := correct s; streak := 0 |}
  \/ s' = {| answered := answered s + 1; correct := correct s + 1;
             streak := streak s + 1 |}.
Proof.
  cbv zeta. rewrite handleSubmit_unfold. cbv zeta.
  destruct (negb (truthy (trim (inputValue st)))); [left; reflexivity|].
  destruct (pendingState st).
  - apply (handleQuizAnswer_stats cm env st (accept env (trim (inputValue st)) st)).
  - left. rewrite (proj1 (handleCommand_frame cm K _ _ _ _)). reflexivity.
Qed.

Lemma step_stats (st : Session) (e : Event) :
  let s := sessionStats st in
  let s' := sessionStats (step cm K st e) in
  s' = s
  \/ s' = {| answered := answered s + 1; correct := correct s; streak := 0 |}
  \/ s' = {| answered := answered s + 1; correct := correct s + 1;
             streak := streak s + 1 |}.
Proof.
  destruct e as [value | env | key]; cbn [step].
  - left. reflexivity.
  - apply handleSubmit_stats.
  - left. apply handleKeyDown_frame.
Qed.

Lemma step_correct_le (st : Session) (e : Event) :
  (correct (sessionStats st) <= answered (sessionStats st))%N ->
  (correct (sessionStats (step cm K st e))
   <= answered (sessionStats (step cm K st e)))%N.
Proof.
  intros H. destruct (step_stats st e) as [E | [E | E]]; rewrite E; cbn; lia.
Qed.

Lemma run_correct_le (events : list Event) (st : Session) :
  (correct (sessionStats st) <= answered (sessionStats st))%N ->
  (correct (sessionStats (run cm K events st))
   <= answered (sessionStats (run cm K events st)))%N.
Proof.
  revert st. induction events as [|e events IH]; intros st H; [exact H|].
  apply IH, step_correct_le, H.
Qed.

(** A sequence of typed lines is a sequence of events. *)
Lemma submitLines_run (lines : list (Env * jsstring)) (st : Session) :
  submitLines cm K lines st
  = run cm K (flat_map (fun l => [Change (snd l); Submit (fst l)]) lines) st.
Proof.
  revert st. induction lines as [|l lines IH]; intros st; [reflexivity|].
  cbn. apply IH.
Qed.

End Statistics.

(** C6: from the first render on, after any sequence of events (lines typed
    and submitted, arrow keys), [correct <= answered], and the same holds
    from any session where it held; any single event leaves [answered] and
    [correct] where they were or higher, and [streak] one higher, as it was,
    or at 0. *)
Theorem stats_invariant :
  (forall cm K (events : list Event),
     let s := sessionStats (run cm K events initialSession) in
     (correct s <= answered s)%N)
  /\ (forall cm K (lines : list (Env * jsstring)),
        let s := sessionStats (submitLines cm K lines initialSession) in
        (correct s <= answered s)%N)
  /\ (forall cm K (events : list Event) (st : Session),
        (correct (sessionStats st) <= answered (sessionStats st))%N ->
        let s := sessionStats (run cm K events st) in
        (correct s <= answered s)%N)
  /\ (forall cm K (st : Session) (e : Event),
        let s := sessionStats st in
        let s' := sessionStats (step cm K st e) in
        (answered s <= answered s')%N
        /\ (correct s <= correct s')%N
        /\ (streak s' = streak s + 1 \/ streak s' = streak s \/ streak s' = 0)%N)
  /\ (forall cm K env line (st : Session),
        let s := sessionStats st in
        let s' := sessionStats (submitLine cm K env line st) in
        (answered s <= answered s')%N
        /\ (correct s <= correct s')%N
        /\ (streak s' = streak s + 1 \/ streak s' = streak s \/ streak s' = 0)%N).
Proof.
  split; [|split; [|split; [|split]]].
  - intros cm K events s. apply run_correct_le. cbn. lia.
  - intros cm K lines s. subst s. rewrite submitLines_run.
    apply run_correct_le. cbn. lia.
  - intros cm K events st H s. apply run_correct_le, H.
  - intros cm K st e s s'.
    destruct (step_stats cm K st e) as [E | [E | E]]; subst s s'; rewrite E; cbn;
      repeat split; try lia; auto.
  - intros cm K env line st s s'.
    destruct (handleSubmit_stats cm K env (setInputValue line st)) as [E | [E | E]];
      subst s s'; unfold submitLine; rewrite E; cbn; repeat split; try lia; auto.
Qed.

Lemma stats_invariant_witness :
  let s :=
    sessionStats
      (run demoCase demoKnowledge
         [ Change (lit "quiz redes"); Submit demoEnv;
           Change (lit "tcp"); Submit demoEnv; KeyDown ArrowUp ]
         quizSkipped) in
  (correct s <= answered s)%N.
Proof.
  refine (proj1 (proj2 (proj2 stats_invariant)) demoCase demoKnowledge _ quizSkipped _).
  vm_compute. discriminate.
Defined.

Example stats_after_two_rounds :
  sessionStats
    (run demoCase demoKnowledge
       [ Change (lit "quiz redes"); Submit demoEnv;
         Change (lit "tcp"); Submit demoEnv; KeyDown ArrowUp ]
       quizSkipped)
  = {| answered := 2; correct := 1; streak := 1 |}.
Proof. reflexivity. Qed.

(** ** The recall buffer *)

Lemma In_filter_other (x y : jsstring) (l : list jsstring) :
  In y (filter (other_than x) l) <-> In y l /\ y <> x.
Proof.
  rewrite filter_In. unfold other_than. rewrite negb_true_iff, str_eqb_neq.
  reflexivity.
Qed.

Lemma filter_other_notin (x : jsstring) (l : list jsstring) :
  ~ In x l -> filter (other_than x) l = l.
Proof.
  induction l as [|y l IH]; intros H; [reflexivity|]. cbn.
  assert (Hy : other_than x y = true).
  { unfold other_than. apply negb_true_iff, str_eqb_neq. intros ->. apply H. left.
    reflexivity. }
  rewrite Hy, IH; [reflexivity|]. intros Hin. apply H. right. exact Hin.
Qed.

Lemma In_firstn_in {A} (n : nat) (x : A) (l : list A) :
  In x (firstn n l) -> In x l.
Proof.
  revert l. induction n as [|n IH]; intros [|y l]; cbn; try tauto.
  intros [H | H]; [left; exact H | right; apply IH; exact H].
Qed.

Lemma NoDup_firstn_keep {A} (n : nat) (l : list A) :
  NoDup l -> NoDup (firstn n l).
Proof.
  revert l. induction n as [|n IH]; intros [|y l] H; cbn; try constructor.
  - inversion H; subst. intros Hin. apply In_firstn_in in Hin. contradiction.
  - inversion H; subst. apply IH. assumption.
Qed.

(** Cutting before filtering loses nothing of the first [n] entries when the
    list has no duplicate: the filter drops [x] at most once. *)
Lemma firstn_filter_firstn (x : jsstring) (n : nat) (l : list jsstring) :
  NoDup l ->
  firstn n (filter (other_than x) (firstn (S n) l))
  = firstn n (filter (other_than x) l).
Proof.
  revert n. induction l as [|y l IH]; intros n H; [reflexivity|].
  inversion H as [|y' l' Hy Hl]; subst. cbn [firstn filter].
  destruct (other_than x y) eqn:E.
  - destruct n as [|n]; [reflexivity|]. cbn [firstn]. f_equal. apply IH, Hl.
  - unfold other_than in E. apply negb_false_iff, str_eqb_eq in E. subst y.
    rewrite (filter_other_notin x l Hy).
    rewrite filter_other_notin.
    + rewrite firstn_firstn, Nat.min_id. reflexivity.
    + intros Hin. apply In_firstn_in in Hin. contradiction.
Qed.

Lemma In_distinct (x : jsstring) (l : list jsstring) :
  In x (distinct l) -> In x l.
Proof.
  induction l as [|y l IH]; cbn; [tauto|].
  intros [H | H]; [left; exact H | right].
  apply IH. change (In x (filter (other_than y) (distinct l))) in H.
  apply In_filter_other in H. tauto.
Qed.

Lemma NoDup_distinct (l : list jsstring) : NoDup (distinct l).
Proof.
  induction l as [|y l IH]; cbn; constructor.
  - change (~ In y (filter (other_than y) (distinct l))).
    rewrite In_filter_other. tauto.
  - apply NoDup_filter, IH.
Qed.

Lemma remember_distinct (x : jsstring) (l : list jsstring) :
  remember x (firstn MAX_HISTORY_COMMANDS (distinct l))
  = firstn MAX_HISTORY_COMMANDS (distinct (x :: l)).
Proof.
  unfold remember, MAX_HISTORY_COMMANDS. cbn [distinct].
  change (fun item => negb (str_eqb item x)) with (other_than x).
  change 30%nat with (S 29). rewrite !firstn_cons. f_equal.
  apply (firstn_filter_firstn x 29), NoDup_distinct.
Qed.

Lemma NoDup_remember (x : jsstring) (l : list jsstring) :
  NoDup l -> NoDup (remember x l).
Proof.
  intros H. unfold remember. apply NoDup_firstn_keep.
  change (fun item => negb (str_eqb item x)) with (other_than x).
  constructor.
  - rewrite In_filter_other. tauto.
  - apply NoDup_filter, H.
Qed.

Lemma length_remember (x : jsstring) (l : list jsstring) :
  (List.length (remember x l) <= MAX_HISTORY_COMMANDS)%nat.
Proof. unfold remember. apply firstn_le_length. Qed.

Lemma length_filter_other (x : jsstring) (l : list jsstring) :
  NoDup l -> In x l ->
  S (List.length (filter (other_than x) l)) = List.length l.
Proof.
  induction l as [|y l IH]; intros Hnd Hin; [contradiction|].
  inversion Hnd as [|y' l' Hy Hl]; subst. cbn [filter].
  destruct (other_than x y) eqn:E.
  - cbn [List.length]. f_equal. apply IH; [exact Hl|].
    destruct Hin as [-> | Hin]; [|exact Hin].
    unfold other_than in E. rewrite str_eqb_refl in E. discriminate.
  - unfold other_than in E. apply negb_false_iff, str_eqb_eq in E. subst y.
    rewrite (filter_other_notin x l Hy). reflexivity.
Qed.

(** A line already in a buffer of distinct lines moves to the front; the
    buffer keeps its length. *)
Lemma remember_present (x : jsstring) (l : list jsstring) :
  NoDup l -> (List.length l <= MAX_HISTORY_COMMANDS)%nat -> In x l ->
  remember x l = x :: filter (other_than x) l
  /\ List.length (remember x l) = List.length l.
Proof.
  intros Hnd Hlen Hin. pose proof (length_filter_other x l Hnd Hin) as Hf.
  assert (E : remember x l = x :: filter (other_than x) l).
  { unfold remember. apply firstn_all2. cbn [List.length].
    change (fun item => negb (str_eqb item x)) with (other_than x). lia. }
  split; [exact E|]. rewrite E. cbn [List.length]. exact Hf.
Qed.

Section Recall.

Variable cm : CaseMapping.
Variable K : Knowledge.

Lemma handleSubmit_commandHistory (env : Env) (st : Session) :
  commandHistory (handleSubmit cm K env st)
  = if truthy (trim (inputValue st))
    then remember (trim (inputValue st)) (commandHistory st)
    else commandHistory st.
Proof.
  rewrite handleSubmit_unfold. cbv zeta.
  destruct (truthy (trim (inputValue st))); cbn [negb]; [|reflexivity].
  destruct (pendingState st).
  - rewrite (proj1 (handleQuizAnswer_frame cm env _ _ _)). reflexivity.
  - rewrite (proj1 (proj2 (handleCommand_frame cm K env _ _ _))). reflexivity.
Qed.

Lemma submitLine_commandHistory (env : Env) (line : jsstring) (st : Session) :
  commandHistory (submitLine cm K env line st)
  = if truthy (trim line) then remember (trim line) (commandHistory st)
    else commandHistory st.
Proof. unfold submitLine. rewrite handleSubmit_commandHistory. reflexivity. Qed.

Lemma step_commandHistory (st : Session) (e : Event) :
  commandHistory (step cm K st e) = commandHistory st
  \/ exists t, commandHistory (step cm K st e) = remember t (commandHistory st).
Proof.
  destruct e as [value | env | key]; cbn [step].
  - left. reflexivity.
  - rewrite handleSubmit_commandHistory. destruct (truthy _); eauto.
  - left. apply handleKeyDown_frame.
Qed.

Lemma run_commandHistory (events : list Event) (st : Session) :
  NoDup (commandHistory st) ->
  (List.length (commandHistory st) <= MAX_HISTORY_COMMANDS)%nat ->
  NoDup (commandHistory (run cm K events st))
  /\ (List.length (commandHistory (run cm K events st)) <= MAX_HISTORY_COMMANDS)%nat.
Proof.
  revert st. induction events as [|e events IH]; intros st Hnd Hlen; [tauto|].
  cbn [run fold_left]. apply IH.
  - destruct (step_commandHistory st e) as [E | [t E]]; rewrite E;
      [exact Hnd | apply NoDup_remember, Hnd].
  - destruct (step_commandHistory st e) as [E | [t E]]; rewrite E;
      [exact Hlen | apply length_remember].
Qed.

(** After any lines, the buffer is the distinct accepted lines, the latest
    first, cut at 30. *)
Lemma submitLines_commandHistory (lines : list (Env * jsstring)) :
  commandHistory (submitLines cm K lines initialSession)
  = firstn MAX_HISTORY_COMMANDS (distinct (rev (accepted lines))).
Proof.
  induction lines as [|l lines IH] using rev_ind; [reflexivity|].
  unfold submitLines. rewrite fold_left_app. cbn [fold_left].
  fold (submitLines cm K lines initialSession).
  rewrite submitLine_commandHistory, IH.
  unfold accepted. rewrite map_app, filter_app. cbn [map filter].
  destruct (truthy (trim (snd l))).
  - rewrite rev_app_distr. cbn [rev app]. apply remember_distinct.
  - rewrite app_nil_r. reflexivity.
Qed.

End Recall.

(** C9: after any sequence of submitted lines the recall buffer has at most
    30 entries and no duplicate, and it is the distinct accepted lines, the
    latest first (the bound and the absence of duplicates also hold after
    any sequence of events); a line that is already in the buffer moves to
    the front and the buffer keeps its length. *)
Theorem recall_buffer_invariant :
  (forall cm K (events : list Event),
     let buf := commandHistory (run cm K events initialSession) in
     (List.length buf <= 30)%nat /\ NoDup buf)
  /\ (forall cm K (lines : list (Env * jsstring)),
        let st := submitLines cm K lines initialSession in
        let buf := commandHistory st in
        (List.length buf <= 30)%nat
        /\ NoDup buf
        /\ buf = firstn 30 (distinct (rev (accepted lines)))
        /\ (forall env line,
              In (trim line) buf ->
              let buf' := commandHistory (submitLine cm K env line st) in
              buf' = trim line :: filter (other_than (trim line)) buf
              /\ List.length buf' = List.length buf)).
Proof.
  split.
  - intros cm K events buf.
    destruct (run_commandHistory cm K events initialSession) as [Hnd Hlen].
    + constructor.
    + cbn. lia.
    + split; [exact Hlen | exact Hnd].
  - intros cm K lines st buf.
    assert (Hbuf : buf = firstn 30 (distinct (rev (accepted lines)))).
    { apply submitLines_commandHistory. }
    assert (Hlen : (List.length buf <= 30)%nat).
    { rewrite Hbuf. apply firstn_le_length. }
    assert (Hnd : NoDup buf).
    { rewrite Hbuf. apply NoDup_firstn_keep, NoDup_distinct. }
    split; [exact Hlen | split; [exact Hnd | split; [exact Hbuf|]]].
    intros env line Hin buf'. subst buf'. rewrite submitLine_commandHistory.
    assert (Ht : truthy (trim line) = true).
    { rewrite Hbuf in Hin. apply In_firstn_in, In_distinct in Hin.
      apply in_rev in Hin. unfold accepted in Hin. apply filter_In in Hin. tauto. }
    rewrite Ht. apply remember_present; assumption.
Qed.

Lemma recall_buffer_invariant_witness :
  commandHistory
    (submitLine demoCase demoKnowledge demoEnv (lit " help ")
       (submitLines demoCase demoKnowledge
          [(demoEnv, lit "help"); (demoEnv, lit "topics"); (demoEnv, lit "  ")]
          initialSession))
  = [lit "help"; lit "topics"].
Proof.
  refine (proj1
    (proj2 (proj2 (proj2
       (proj2 recall_buffer_invariant demoCase demoKnowledge
          [(demoEnv, lit "help"); (demoEnv, lit "topics"); (demoEnv, lit "  ")])))
       demoEnv (lit " help ") _)).
  vm_compute. right. left. reflexivity.
Defined.

(** ** The command line *)

Lemma takeWhile_ext_in {A} (p q : A -> bool) (l : list A) :
  (forall x, In x l -> p x = q x) -> takeWhile p l = takeWhile q l.
Proof.
  induction l as [|y l IH]; intros H; [reflexivity|]. cbn.
  rewrite <- (H y (or_introl eq_refl)).
  destruct (p y); [|reflexivity]. f_equal. apply IH.
  intros x Hx. apply H. right. exact Hx.
Qed.

Lemma dropWhile_ext_in {A} (p q : A -> bool) (l : list A) :
  (forall x, In x l -> p x = q x) -> dropWhile p l = dropWhile q l.
Proof.
  induction l as [|y l IH]; intros H; [reflexivity|]. cbn.
  rewrite <- (H y (or_introl eq_refl)).
  destruct (p y); [|reflexivity]. apply IH.
  intros x Hx. apply H. right. exact Hx.
Qed.

(** C7, as the page has it: a line that is blank once trimmed does nothing
    at all; otherwise the command is the text of the trimmed line before its
    first space (U+0020), lower-cased, and the argument is the text after
    that space, trimmed and in its original case.  When the only white space
    in the trimmed line is the space, this is the split on the first
    white-space run that the specification words. *)
Theorem command_line_parsing :
  (forall cm K env (st : Session),
     normalizeInput (inputValue st) = [] -> handleSubmit cm K env st = st)
  /\ (forall cm (line : jsstring),
        let t := normalizeInput line in
        commandKey cm t = toLowerCase cm (takeWhile notSpace t)
        /\ argString t = trim (tl (dropWhile notSpace t)))
  /\ (forall cm (line : jsstring),
        let t := normalizeInput line in
        (forall c, In c t -> isWhiteSpace c = true -> c = 32%N) ->
        commandKey cm t = spec_command cm t
        /\ argString t = spec_argument t).
Proof.
  split; [|split].
  - intros cm K env st H. rewrite handleSubmit_unfold. cbv zeta.
    unfold normalizeInput in H. rewrite H. reflexivity.
  - intros cm line t. unfold commandKey, argString.
    rewrite split_hd, split_tl. split; reflexivity.
  - intros cm line t H. unfold commandKey, argString, spec_command, spec_argument.
    rewrite split_hd, split_tl.
    assert (E : forall c, In c t -> notSpace c = negb (isWhiteSpace c)).
    { intros c Hc. unfold notSpace. destruct (isWhiteSpace c) eqn:W.
      - rewrite (H c Hc W). reflexivity.
      - destruct (c =? 32)%N eqn:C; [|reflexivity].
        apply N.eqb_eq in C. subst c. discriminate. }
    rewrite (takeWhile_ext_in _ _ t E), (dropWhile_ext_in _ _ t E).
    split; [reflexivity|].
    destruct (dropWhile_head (fun c => negb (isWhiteSpace c)) t)
      as [D | (x & r & D & Hx)]; rewrite D; [reflexivity|].
    apply negb_false_iff in Hx. cbn [tl].
    unfold trim, trimStart. cbn [dropWhile]. rewrite Hx. reflexivity.
Qed.

Lemma command_line_parsing_witness :
  commandKey demoCase (normalizeInput (lit "  Lesson   Redes TCP "))
  = spec_command demoCase (normalizeInput (lit "  Lesson   Redes TCP "))
  /\ argString (normalizeInput (lit "  Lesson   Redes TCP "))
     = spec_argument (normalizeInput (lit "  Lesson   Redes TCP ")).
Proof.
  refine (proj2 (proj2 command_line_parsing) demoCase (lit "  Lesson   Redes TCP ") _).
  vm_compute. intros c H W.
  repeat (destruct H as [<- | H]; [first [reflexivity | discriminate W]|]).
  destruct H.
Defined.

Example command_line_spaces :
  commandKey demoCase (normalizeInput (lit "  Lesson   Redes TCP ")) = lit "lesson"
  /\ argString (normalizeInput (lit "  Lesson   Redes TCP ")) = lit "Redes TCP".
Proof. split; reflexivity. Qed.

(** A tab is white space and is not a space: the page takes the whole line
    for the command, where the specification's split gives [lesson] and
    [redes]. *)
Lemma tab_is_not_a_separator :
  let t := lit "lesson" ++ [9%N] ++ lit "redes" in
  normalizeInput t = t
  /\ commandKey demoCase t = t
  /\ argString t = []
  /\ spec_command demoCase t = lit "lesson"
  /\ spec_argument t = lit "redes"
  /\ ~ (commandKey demoCase t = spec_command demoCase t
        /\ argString t = spec_argument t)
  /\ last (history (submitLine demoCase demoKnowledge demoEnv t initialSession))
       (userEntry demoEnv [])
     = replyEntry demoEnv
         [ lit "Comando desconocido: " ++ t;
           lit "Escribe `help` para ver opciones disponibles." ].
Proof.
  cbv zeta. repeat split. intros [H _]. vm_compute in H. discriminate H.
Qed.

(** * Further properties of the page *)

(** ** The history *)

Ltac split_branches_eq :=
  repeat match goal with
         | |- context [if ?b then _ else _] => destruct b eqn:?
         | |- context [match ?x with Some _ => _ | None => _ end] => destruct x eqn:?
         | |- context [match ?x with [] => _ | _ :: _ => _ end] => destruct x eqn:?
         end.

Ltac session_cbn :=
  cbn [history inputValue pendingState sessionStats commandHistory historyIndexRef
       setHistory setInputValue setPendingState setSessionStats setCommandHistory
       setHistoryIndex addEntry showAssistant resetTerminal accept].

Section History.

Variable cm : CaseMapping.
Variable K : Knowledge.

Lemma answerNaturalQuestion_None (query : jsstring) :
  answerNaturalQuestion K query = None ->
  matchQuestionToTopic K query = None /\ topics K = [].
Proof.
  unfold answerNaturalQuestion.
  destruct (matchQuestionToTopic K query); [discriminate|].
  destruct (topics K); [tauto | discriminate].
Qed.

(** What a command does to the history: one reply after what was there, or
    the boot entry and one reply, or nothing when [question] finds no topic
    at all. *)
Lemma handleCommand_history (env : Env) (snap st : Session) (t : jsstring) :
  t <> [] -> trim t = t ->
  (exists lines,
     history (handleCommand cm K env snap t st) = history st ++ [replyEntry env lines])
  \/ history (handleCommand cm K env snap t st)
     = initialHistory ++ [replyEntry env [lit "Pantalla limpia. Continuemos."]]
  \/ (history (handleCommand cm K env snap t st) = history st /\ topics K = []).
Proof.
  intros Hne Ht. unfold handleCommand, normalizeInput. rewrite Ht.
  rewrite (proj2 (truthy_true _) Hne). cbn [negb]. cbv zeta.
  generalize (commandKey cm t) as key. generalize (argString t) as arg.
  intros arg key.
  repeat match goal with
         | |- context [one_of key ?ls] => destruct (one_of key ls)
         end;
    split_branches_eq;
    first [ left; eexists; session_cbn; reflexivity
          | right; left; reflexivity
          | right; right; split; [reflexivity|];
            match goal with
            | H : answerNaturalQuestion _ _ = None |- _ =>
              exact (proj2 (answerNaturalQuestion_None _ H))
            end ].
Qed.

Lemma handleQuizAnswer_history (env : Env) (snap st : Session) (v : jsstring)
    (p : Pending) :
  pendingState snap = Some p ->
  exists lines,
    history (handleQuizAnswer cm env snap v st) = history st ++ [replyEntry env lines].
Proof.
  intros Hp. unfold handleQuizAnswer. rewrite Hp. cbv zeta.
  split_branches_eq; eexists; session_cbn; reflexivity.
Qed.

(** The four things a submission can do to the history. *)
Lemma submitLine_history (env : Env) (line : jsstring) (st : Session) :
  (trim line = [] /\ history (submitLine cm K env line st) = history st)
  \/ (trim line <> [] /\ exists lines,
        history (submitLine cm K env line st)
        = history st ++ [userEntry env (trim line); replyEntry env lines])
  \/ (trim line <> [] /\ pendingState st = None
      /\ history (submitLine cm K env line st)
         = initialHistory ++ [replyEntry env [lit "Pantalla limpia. Continuemos."]])
  \/ (trim line <> [] /\ topics K = []
      /\ history (submitLine cm K env line st)
         = history st ++ [userEntry env (trim line)]).
Proof.
  destruct (trim line) as [|c r] eqn:Et.
  - left. split; [reflexivity|]. rewrite (submitLine_blank cm K env line st Et).
    reflexivity.
  - right. rewrite <- Et.
    assert (Hne : trim line <> []) by (rewrite Et; discriminate).
    destruct (pendingState st) as [p|] eqn:Hp.
    + left. split; [exact Hne|].
      rewrite (submitLine_quiz cm K env line st p Hp Hne).
      destruct (handleQuizAnswer_history env (setInputValue line st) 
                  (accept env (trim line) (setInputValue line st)) (trim line) p Hp)
        as [lines E].
      exists lines. rewrite E. session_cbn. rewrite <- app_assoc. reflexivity.
    + rewrite (submitLine_command cm K env line st Hp Hne).
      destruct (handleCommand_history env (setInputValue line st)
                  (accept env (trim line) (setInputValue line st)) (trim line)
                  Hne (trim_idem line)) as [[lines E] | [E | [E Ht]]].
      * left. split; [exact Hne|]. exists lines. rewrite E. session_cbn.
        rewrite <- app_assoc. reflexivity.
      * right. left. split; [exact Hne|]. split; [reflexivity | exact E].
      * right. right. split; [exact Hne|]. split; [exact Ht|]. rewrite E.
        reflexivity.
Qed.

End History.

Lemma handleSubmit_submitLine (cm : CaseMapping) (K : Knowledge) (env : Env)
    (st : Session) :
  handleSubmit cm K env st = submitLine cm K env (inputValue st) st.
Proof. destruct st; reflexivity. Qed.

Lemma step_history (cm : CaseMapping) (K : Knowledge) (st : Session) (e : Event) :
  exists more,
    (history (step cm K st e) = history st ++ more
     \/ history (step cm K st e) = initialHistory ++ more)
    /\ Forall (fun entry => role entry <> system) more.
Proof.
  destruct e as [value | env | key]; cbn [step].
  - exists []. rewrite app_nil_r. split; [left; reflexivity | constructor].
  - rewrite handleSubmit_submitLine.
    destruct (submitLine_history cm K env (inputValue st) st)
      as [[_ E] | [[_ [lines E]] | [[_ [_ E]] | [_ [_ E]]]]]; rewrite E.
    + exists []. rewrite app_nil_r. split; [left; reflexivity | constructor].
    + eexists. split; [left; reflexivity|].
      repeat constructor; discriminate.
    + eexists. split; [right; reflexivity|]. repeat constructor; discriminate.
    + eexists. split; [left; reflexivity|]. repeat constructor; discriminate.
  - exists []. rewrite app_nil_r. split; [left|constructor].
    apply handleKeyDown_frame.
Qed.

(** X1: whatever happens in a session, the history starts with the boot
    entry, and that entry is the only one of the system: every entry after
    it is a line of the user or a reply. *)
Theorem history_keeps_boot_entry (cm : CaseMapping) (K : Knowledge)
    (events : list Event) :
  exists rest,
    history (run cm K events initialSession) = initialHistory ++ rest
    /\ Forall (fun entry => role entry <> system) rest.
Proof.
  assert (G : forall st,
             (exists rest, history st = initialHistory ++ rest
                           /\ Forall (fun entry => role entry <> system) rest) ->
             exists rest, history (run cm K events st) = initialHistory ++ rest
                          /\ Forall (fun entry => role entry <> system) rest).
  { induction events as [|e events IH]; intros st H; [exact H|].
    cbn [run fold_left]. apply IH. destruct H as (rest & Hh & Hr).
    destruct (step_history cm K st e) as (more & [E | E] & Hm).
    - exists (rest ++ more). rewrite E, Hh, app_assoc. split; [reflexivity|].
      apply Forall_app. split; assumption.
    - exists more. split; assumption. }
  apply G. exists []. split; [reflexivity | constructor].
Qed.

(** X2: with a content store that has at least one topic, every accepted
    line is answered by exactly one reply: the history grows by the line of
    the user and one assistant entry, or (for [clear], with no question
    pending) becomes the boot entry and one assistant entry. *)
Theorem every_line_gets_one_reply (cm : CaseMapping) (K : Knowledge) (env : Env)
    (line : jsstring) (st : Session) :
  topics K <> [] ->
  trim line <> [] ->
  exists lines,
    history (submitLine cm K env line st)
    = history st ++ [userEntry env (trim line); replyEntry env lines]
    \/ (pendingState st = None
        /\ history (submitLine cm K env line st) = initialHistory ++ [replyEntry env lines]).
Proof.
  intros Htopics Hne.
  destruct (submitLine_history cm K env line st)
    as [[E _] | [[_ [lines E]] | [[_ [Hp E]] | [_ [Ht _]]]]].
  - contradiction.
  - exists lines. left. exact E.
  - eexists. right. split; [exact Hp | exact E].
  - contradiction.
Qed.

Lemma every_line_gets_one_reply_witness :
  exists lines,
    history (submitLine demoCase demoKnowledge demoEnv (lit "no such thing") quizActive)
    = history quizActive
      ++ [userEntry demoEnv (trim (lit "no such thing")); replyEntry demoEnv lines]
    \/ (pendingState quizActive = None
        /\ history (submitLine demoCase demoKnowledge demoEnv (lit "no such thing")
                      quizActive)
           = initialHistory ++ [replyEntry demoEnv lines]).
Proof.
  refine (every_line_gets_one_reply demoCase demoKnowledge demoEnv
            (lit "no such thing") quizActive _ _);
    vm_compute; discriminate.
Defined.

(** ** Commands the dispatcher does not know, and synonyms *)

Lemma one_of_app (key : jsstring) (l1 l2 : list string) :
  one_of key (l1 ++ l2) = one_of key l1 || one_of key l2.
Proof. unfold one_of. apply existsb_app. Qed.

Lemma one_of_commands (key : jsstring) :
  one_of key commands = false ->
  Forall (fun group => one_of key group = false) aliases.
Proof.
  unfold commands, aliases. cbn [List.concat].
  repeat rewrite one_of_app. intros H.
  repeat match type of H with
         | _ || _ = false => apply orb_false_iff in H; destruct H as [? H]
         end.
  repeat (constructor; [assumption|]). constructor.
Qed.

(** Decides the [case] labels by rewriting. *)
Ltac rewrite_guards :=
  repeat lazymatch goal with
         | |- context [one_of (lit ?k) ?ls] =>
           let b := eval vm_compute in (one_of (lit k) ls) in
           let E := fresh "E" in
           assert (E : one_of (lit k) ls = b) by (vm_compute; reflexivity);
           rewrite E; clear E
         end.

Section Vocabulary.

Variable cm : CaseMapping.
Variable K : Knowledge.

Ltac enter_command Ht Hne :=
  unfold handleCommand, normalizeInput; rewrite Ht;
  rewrite (proj2 (truthy_true _) Hne); cbn [negb]; cbv zeta.

Lemma handleCommand_unknown (env : Env) (snap st : Session) (t : jsstring) :
  trim t = t -> t <> [] ->
  one_of (commandKey cm t) commands = false ->
  handleCommand cm K env snap t st
  = showAssistant (replyEntryId env)
      [ lit "Comando desconocido: " ++ commandKey cm t;
        lit "Escribe `help` para ver opciones disponibles." ] st.
Proof.
  intros Ht Hne Hk. enter_command Ht Hne.
  apply one_of_commands in Hk. unfold aliases in Hk.
  repeat match goal with
         | H : Forall _ (_ :: _) |- _ =>
           let H1 := fresh in let H2 := fresh in
           inversion H as [|? ? H1 H2]; subst; clear H; rewrite H1
         end.
  reflexivity.
Qed.

(** The dispatcher knows 25 command words, in 13 groups. *)
Example commands_count :
  List.length commands = 25%nat /\ List.length aliases = 13%nat /\ NoDup commands.
Proof.
  split; [reflexivity | split; [reflexivity|]].
  unfold commands, aliases. cbn [List.concat app].
  repeat (constructor; [cbn [In]; intros H;
    repeat (destruct H as [H | H]; [discriminate H|]); exact H|]).
  constructor.
Qed.

(** X3: with no question pending, a line whose first word, lower-cased, is
    none of the 25 command words of the dispatcher ([help], [?], [topics],
    ..., [clear], [cls]) gets the unknown-command reply, which names that
    word and points to [help]; nothing else of the session changes: no
    question becomes pending and the statistics stay. *)
Theorem unknown_command_reply (env : Env) (line : jsstring) (st : Session) :
  pendingState st = None ->
  trim line <> [] ->
  one_of (commandKey cm (trim line)) commands = false ->
  let st' := submitLine cm K env line st in
  history st'
  = history st
    ++ [ userEntry env (trim line);
         replyEntry env
           [ lit "Comando desconocido: " ++ commandKey cm (trim line);
             lit "Escribe `help` para ver opciones disponibles." ] ]
  /\ pendingState st' = None
  /\ sessionStats st' = sessionStats st.
Proof.
  intros Hp Hne Hk st'. subst st'.
  rewrite (submitLine_command cm K env line st Hp Hne).
  rewrite (handleCommand_unknown _ _ _ _ (trim_idem line) Hne Hk).
  split; [|split].
  - session_cbn. rewrite <- app_assoc. reflexivity.
  - session_cbn. exact Hp.
  - reflexivity.
Qed.

(** X4: the words of one [case] group are synonyms, in any letter case: two
    command lines whose first words fall in the same group and whose
    arguments are equal are handled alike. *)
Theorem synonyms_are_handled_alike (env : Env) (snap st : Session)
    (group : list string) (t1 t2 : jsstring) :
  In group aliases ->
  trim t1 = t1 -> t1 <> [] -> trim t2 = t2 -> t2 <> [] ->
  one_of (commandKey cm t1) group = true ->
  one_of (commandKey cm t2) group = true ->
  argString t1 = argString t2 ->
  handleCommand cm K env snap t1 st = handleCommand cm K env snap t2 st.
Proof.
  intros Hg Ht1 Hn1 Ht2 Hn2 Hk1 Hk2 Ha.
  unfold handleCommand, normalizeInput. rewrite Ht1, Ht2.
  rewrite (proj2 (truthy_true _) Hn1), (proj2 (truthy_true _) Hn2).
  cbn [negb]. cbv zeta. rewrite Ha.
  apply one_of_In in Hk1. destruct Hk1 as (l1 & Hin1 & Hk1). rewrite Hk1.
  apply one_of_In in Hk2. destruct Hk2 as (l2 & Hin2 & Hk2). rewrite Hk2.
  clear Hk1 Hk2 Ha Ht1 Ht2 Hn1 Hn2.
  unfold aliases in Hg. cbn [In] in Hg.
  repeat (destruct Hg as [E | Hg]; [subst group|]); try contradiction.
  all: cbn [In] in Hin1, Hin2.
  all: repeat (destruct Hin1 as [E1 | Hin1]; [subst l1|]); try contradiction.
  all: repeat (destruct Hin2 as [E2 | Hin2]; [subst l2|]); try contradiction.
  all: rewrite_guards; reflexivity.
Qed.

End Vocabulary.

Lemma unknown_command_reply_witness :
  lastReply (submitLine demoCase demoKnowledge demoEnv (lit "Sudo rm -rf /") initialSession)
  = [ lit "Comando desconocido: sudo";
      lit "Escribe `help` para ver opciones disponibles." ].
Proof.
  pose proof (unknown_command_reply demoCase demoKnowledge demoEnv
                (lit "Sudo rm -rf /") initialSession) as H.
  cbv zeta in H. unfold lastReply.
  rewrite (proj1 (H eq_refl ltac:(vm_compute; discriminate) ltac:(vm_compute; reflexivity))).
  vm_compute. reflexivity.
Defined.

(** [?] is one of the command words: it is answered as [help] is. *)
Example question_mark_is_a_command :
  one_of (commandKey demoCase (trim (lit "?"))) commands = true
  /\ lastReply (submitLine demoCase demoKnowledge demoEnv (lit "?") initialSession)
     = lastReply (submitLine demoCase demoKnowledge demoEnv (lit "help") initialSession).
Proof. split; vm_compute; reflexivity. Qed.

Lemma synonyms_are_handled_alike_witness :
  handleCommand demoCase demoKnowledge demoEnv initialSession (lit "RECURSOS redes")
    initialSession
  = handleCommand demoCase demoKnowledge demoEnv initialSession (lit "resources   redes")
      initialSession.
Proof.
  refine (synonyms_are_handled_alike demoCase demoKnowledge demoEnv initialSession
            initialSession ["resources"; "recursos"] _ _ _ _ _ _ _ _ _ _).
  - right. right. right. left. reflexivity.
  - vm_compute; reflexivity.
  - vm_compute; discriminate.
  - vm_compute; reflexivity.
  - vm_compute; discriminate.
  - vm_compute; reflexivity.
  - vm_compute; reflexivity.
  - vm_compute; reflexivity.
Defined.

(** ** The round of a question *)

Lemma pickRandom_In {A} (rnd : number) (arr : list A) (x : A) :
  pickRandom rnd arr = Some x -> In x arr.
Proof.
  unfold pickRandom, index.
  destruct (Math_floor _) as [z|]; [|discriminate].
  destruct (z <? 0)%Z; [discriminate|]. apply nth_error_In.
Qed.

Section Round.

Variable cm : CaseMapping.
Variable K : Knowledge.

Lemma pickQuizQuestion_fromCatalog (rnd : number) (alias : jsstring)
    (q : QuizQuestion.t) :
  pickQuizQuestion K rnd alias = Some q -> fromCatalog K q.
Proof.
  unfold pickQuizQuestion, fromCatalog. cbv zeta.
  assert (G : match getAllQuizQuestions K with
              | [] => None
              | _ :: _ => pickRandom rnd (getAllQuizQuestions K)
              end = Some q -> In q (getAllQuizQuestions K)).
  { destruct (getAllQuizQuestions K) eqn:E; [discriminate|].
    rewrite <- E. apply pickRandom_In. }
  destruct (truthy alias); [|intros H; left; exact (G H)].
  destruct (findTopicByAlias K alias) as [topic|] eqn:Ef;
    [|intros H; left; exact (G H)].
  destruct (Topic.quiz topic) eqn:Eq; [intros H; left; exact (G H)|].
  rewrite <- Eq. intros H. right. exists alias, topic.
  split; [exact Ef | exact (pickRandom_In _ _ _ H)].
Qed.

(** What a command does to the pending state: nothing, or it ends it
    ([clear]), or it starts a question of the store with no failed try and
    no hint. *)
Lemma handleCommand_pending (env : Env) (snap st : Session) (t : jsstring) :
  pendingState (handleCommand cm K env snap t st) = pendingState st
  \/ pendingState (handleCommand cm K env snap t st) = None
  \/ exists q,
       pendingState (handleCommand cm K env snap t st)
       = Some {| question := q; attempts := 0; revealedHint := false |}
       /\ fromCatalog K q.
Proof.
  unfold handleCommand. cbv zeta.
  generalize (commandKey cm (normalizeInput t)) as key.
  generalize (argString (normalizeInput t)) as arg. intros arg key.
  destruct (negb (truthy (normalizeInput t))); [left; reflexivity|].
  repeat match goal with
         | |- context [one_of key ?ls] => destruct (one_of key ls)
         end;
    split_branches_eq;
    first [ left; reflexivity
          | right; left; reflexivity
          | right; right; eexists; split; [reflexivity|];
            eapply pickQuizQuestion_fromCatalog; eassumption ].
Qed.

(** What an answer does to the round: it ends it, counting it once, as
    correct (streak one longer) or not (streak 0); or the same question
    stays, with the statistics as they were. *)
Lemma handleQuizAnswer_round (env : Env) (snap st : Session) (v : jsstring)
    (p : Pending) :
  pendingState snap = Some p ->
  pendingState st = Some p ->
  sessionStats st = sessionStats snap ->
  let st' := handleQuizAnswer cm env snap v st in
  let s := sessionStats snap in
  (pendingState st' = None
   /\ (sessionStats st'
       = {| answered := answered s + 1; correct := correct s + 1;
            streak := streak s + 1 |}
       \/ sessionStats st'
          = {| answered := answered s + 1; correct := correct s; streak := 0 |}))
  \/ (exists p',
        pendingState st' = Some p'
        /\ question p' = question p
        /\ (attempts p' = attempts p \/ (attempts p = 0 /\ attempts p' = 1))%N
        /\ (revealedHint p = true -> revealedHint p' = true)
        /\ (revealedHint p' = revealedHint p \/ attempts p' = attempts p)
        /\ sessionStats st' = s).
Proof.
  intros Hp Hst Hs st' s. subst st' s. unfold handleQuizAnswer. rewrite Hp.
  cbv zeta. split_branches_eq; session_cbn.
  - right. exists p. rewrite Hst. repeat split; auto.
  - right. eexists. split; [reflexivity|]. cbn. repeat split; auto.
  - left. split; [reflexivity|]. right. reflexivity.
  - left. split; [reflexivity|]. left. reflexivity.
  - left. split; [reflexivity|]. right. reflexivity.
  - right. eexists. split; [reflexivity|]. cbn.
    match goal with H : (2 <=? _)%N = false |- _ => apply N.leb_gt in H end.
    repeat split; auto. right. lia.
Qed.

(** X5: the statistics change exactly when a pending question is resolved.
    With no question pending a submission leaves them as they are.  With a
    question pending, either the round ends and is counted once ([answered]
    one more, and [correct] and [streak] one more, or [correct] as it was
    and [streak] at 0), or the same question stays pending with the
    statistics unchanged, the number of failed tries going from 0 to 1 at
    most and a hint once given staying given. *)
Theorem statistics_change_at_resolution (env : Env) (line : jsstring) (st : Session) :
  let st' := submitLine cm K env line st in
  let s := sessionStats st in
  match pendingState st with
  | None => sessionStats st' = s
  | Some p =>
    (pendingState st' = None
     /\ (sessionStats st'
         = {| answered := answered s + 1; correct := correct s + 1;
              streak := streak s + 1 |}
         \/ sessionStats st'
            = {| answered := answered s + 1; correct := correct s; streak := 0 |}))
    \/ (exists p',
          pendingState st' = Some p'
          /\ question p' = question p
          /\ (attempts p' = attempts p \/ (attempts p = 0 /\ attempts p' = 1))%N
          /\ (revealedHint p = true -> revealedHint p' = true)
          /\ sessionStats st' = s)
  end.
Proof.
  intros st' s. subst st' s. destruct (pendingState st) as [p|] eqn:Hp.
  - destruct (trim line) as [|c r] eqn:Et.
    + rewrite (submitLine_blank cm K env line st Et). right. exists p.
      repeat split; auto.
    + assert (Hne : trim line <> []) by (rewrite Et; discriminate).
      rewrite (submitLine_quiz cm K env line st p Hp Hne).
      destruct (handleQuizAnswer_round env (setInputValue line st)
                  (accept env (trim line) (setInputValue line st)) (trim line) p
                  Hp Hp eq_refl) as [H | (p' & H1 & H2 & H3 & H4 & _ & H6)].
      * left. exact H.
      * right. exists p'. repeat split; assumption.
  - destruct (trim line) as [|c r] eqn:Et.
    + rewrite (submitLine_blank cm K env line st Et). reflexivity.
    + assert (Hne : trim line <> []) by (rewrite Et; discriminate).
      rewrite (submitLine_command cm K env line st Hp Hne).
      rewrite (proj1 (handleCommand_frame cm K _ _ _ _)). reflexivity.
Qed.

(** The pending state after a submission, from a well-formed one. *)
Lemma handleSubmit_pending_ok (env : Env) (st : Session) :
  pending_ok K st -> pending_ok K (handleSubmit cm K env st).
Proof.
  intros H. rewrite handleSubmit_submitLine.
  unfold pending_ok in *.
  destruct (trim (inputValue st)) as [|c r] eqn:Et.
  { rewrite (submitLine_blank cm K env _ st Et). exact H. }
  assert (Hne : trim (inputValue st) <> []) by (rewrite Et; discriminate).
  destruct (pendingState st) as [p|] eqn:Hp.
  - rewrite (submitLine_quiz cm K env _ st p Hp Hne).
    destruct (handleQuizAnswer_round env (setInputValue (inputValue st) st)
                (accept env (trim (inputValue st)) (setInputValue (inputValue st) st))
                (trim (inputValue st)) p Hp Hp eq_refl)
      as [[E _] | (p' & E & Hq & Ha & _)]; rewrite E; [exact I|].
    destruct H as [Ha' Hc]. rewrite Hq. split; [lia | exact Hc].
  - rewrite (submitLine_command cm K env _ st Hp Hne).
    destruct (handleCommand_pending env (setInputValue (inputValue st) st)
                (accept env (trim (inputValue st)) (setInputValue (inputValue st) st))
                (trim (inputValue st))) as [E | [E | (q & E & Hq)]]; rewrite E.
    + session_cbn. rewrite Hp. exact I.
    + exact I.
    + cbn. split; [lia | exact Hq].
Qed.

End Round.

(** ** Invariants of a session *)

Section Invariants.

Variable cm : CaseMapping.
Variable K : Knowledge.

Lemma step_pending_ok (st : Session) (e : Event) :
  pending_ok K st -> pending_ok K (step cm K st e).
Proof.
  destruct e as [value | env | key]; cbn [step].
  - intros H. exact H.
  - apply handleSubmit_pending_ok.
  - unfold pending_ok.
    rewrite (proj1 (proj2 (proj2 (handleKeyDown_frame key st)))). intros H. exact H.
Qed.

(** X6: at any point of a session a pending question has at most one failed
    try behind it and is a question of the content store: one of all its
    questions, or one of the quiz of a topic that an alias resolves to. *)
Theorem pending_question_invariant (events : list Event) :
  match pendingState (run cm K events initialSession) with
  | None => True
  | Some p => (attempts p <= 1)%N /\ fromCatalog K (question p)
  end.
Proof.
  change (pending_ok K (run cm K events initialSession)).
  assert (G : forall st, pending_ok K st -> pending_ok K (run cm K events st)).
  { induction events as [|e events IH]; intros st H; [exact H|].
    cbn [run fold_left]. apply IH, step_pending_ok, H. }
  apply G. exact I.
Qed.

Lemma step_answered (st : Session) (e : Event) :
  (answered (sessionStats (step cm K st e))
   <= answered (sessionStats st) + match e with Submit _ => 1 | _ => 0 end)%N
  /\ ((streak (sessionStats st) <= correct (sessionStats st))%N ->
      (streak (sessionStats (step cm K st e))
       <= correct (sessionStats (step cm K st e)))%N).
Proof.
  destruct e as [value | env | key]; cbn [step].
  - change (sessionStats (setInputValue value st)) with (sessionStats st).
    split; [lia | tauto].
  - destruct (handleSubmit_stats cm K env st) as [E | [E | E]]; rewrite E; cbn;
      split; lia.
  - rewrite (proj1 (handleKeyDown_frame key st)). split; [lia | tauto].
Qed.

Lemma run_answered (events : list Event) (st : Session) :
  (streak (sessionStats st) <= correct (sessionStats st))%N ->
  (answered (sessionStats (run cm K events st))
   <= answered (sessionStats st) + submissions events)%N
  /\ (streak (sessionStats (run cm K events st))
      <= correct (sessionStats (run cm K events st)))%N.
Proof.
  revert st. induction events as [|e events IH]; intros st H.
  - cbn. split; [lia | exact H].
  - cbn [run fold_left].
    destruct (step_answered st e) as [Ha Hs].
    destruct (IH (step cm K st e) (Hs H)) as [IHa IHs].
    split; [|exact IHs].
    fold (run cm K events (step cm K st e)) in *.
    destruct e; cbn [submissions]; lia.
Qed.

(** X7: in a session the streak never exceeds the number of correct answers,
    and the number of answered questions never exceeds the number of
    submissions: one submission resolves at most one question. *)
Theorem streak_and_answered_bounds (events : list Event) :
  let s := sessionStats (run cm K events initialSession) in
  (streak s <= correct s)%N /\ (answered s <= submissions events)%N.
Proof.
  intros s. subst s.
  destruct (run_answered events initialSession) as [Ha Hs]; [cbn; lia|].
  split; [exact Hs|]. cbn in Ha. exact Ha.
Qed.

(** X8: white space around a line does not matter: a line that is not blank
    and its trimmed form leave the session in the same state. *)
Theorem surrounding_whitespace_is_ignored (env : Env) (line : jsstring)
    (st : Session) :
  trim line <> [] ->
  submitLine cm K env line st = submitLine cm K env (trim line) st.
Proof.
  intros Hne.
  assert (Hne' : trim (trim line) <> []) by (rewrite trim_idem; exact Hne).
  destruct (pendingState st) as [p|] eqn:Hp.
  - rewrite (submitLine_quiz cm K env line st p Hp Hne).
    rewrite (submitLine_quiz cm K env (trim line) st p Hp Hne').
    rewrite trim_idem. unfold handleQuizAnswer. reflexivity.
  - rewrite (submitLine_command cm K env line st Hp Hne).
    rewrite (submitLine_command cm K env (trim line) st Hp Hne').
    rewrite trim_idem. unfold handleCommand. reflexivity.
Qed.

End Invariants.

Lemma surrounding_whitespace_is_ignored_witness :
  submitLine demoCase demoKnowledge demoEnv (lit "   quiz redes  ") initialSession
  = quizActive.
Proof.
  rewrite (surrounding_whitespace_is_ignored demoCase demoKnowledge demoEnv
             (lit "   quiz redes  ") initialSession);
    [reflexivity | vm_compute; discriminate].
Defined.

(** ** The recall buffer and the arrow keys *)

Lemma Forall_firstn_keep {A} (P : A -> Prop) (n : nat) (l : list A) :
  Forall P l -> Forall P (firstn n l).
Proof.
  intros H. rewrite Forall_forall in *. intros x Hx. apply H.
  apply (In_firstn_in n). exact Hx.
Qed.

Lemma Forall_remember (P : jsstring -> Prop) (line : jsstring) (prev : list jsstring) :
  P line -> Forall P prev -> Forall P (remember line prev).
Proof.
  intros Hl Hp. unfold remember. apply Forall_firstn_keep. constructor; [exact Hl|].
  rewrite Forall_forall in *. intros x Hx. apply filter_In in Hx. apply Hp, Hx.
Qed.

Lemma recall_Some (l : list jsstring) (i : Z) (x : jsstring) :
  recall l i = Some x -> (0 <= i < Z.of_nat (List.length l))%Z.
Proof.
  unfold recall. destruct (i <? 0)%Z eqn:E; [discriminate|].
  apply Z.ltb_ge in E. intros H.
  assert (Hn : nth_error l (Z.to_nat i) <> None) by (rewrite H; discriminate).
  apply nth_error_Some in Hn. lia.
Qed.

Lemma recall_nth (l : list jsstring) (i : Z) :
  (0 <= i < Z.of_nat (List.length l))%Z ->
  recall l i = Some (nth (Z.to_nat i) l []).
Proof.
  intros H. unfold recall. destruct (i <? 0)%Z eqn:E; [apply Z.ltb_lt in E; lia|].
  apply nth_error_nth'. lia.
Qed.

Lemma nth_truthy (l : list jsstring) (n : nat) :
  Forall (fun line => line <> [] /\ trim line = line) l ->
  (n < List.length l)%nat ->
  truthy (nth n l []) = true.
Proof.
  intros H Hn. rewrite Forall_forall in H. apply truthy_true.
  apply (H (nth n l [])), nth_In, Hn.
Qed.

Section Keys.

Variable cm : CaseMapping.
Variable K : Knowledge.

Lemma handleSubmit_cursor (env : Env) (st : Session) :
  historyIndexRef (handleSubmit cm K env st)
  = if truthy (trim (inputValue st)) then None else historyIndexRef st.
Proof.
  rewrite handleSubmit_unfold. cbv zeta.
  destruct (truthy (trim (inputValue st))); cbn [negb]; [|reflexivity].
  destruct (pendingState st).
  - rewrite (proj2 (proj2 (handleQuizAnswer_frame cm env _ _ _))). reflexivity.
  - rewrite (proj2 (proj2 (proj2 (handleCommand_frame cm K env _ _ _)))). reflexivity.
Qed.

Lemma handleKeyDown_cursor (key : Key) (st : Session) :
  cursor_ok st -> cursor_ok (handleKeyDown key st).
Proof.
  unfold cursor_ok. intros H.
  rewrite (proj1 (proj2 (handleKeyDown_frame key st))).
  unfold handleKeyDown. destruct key; [| |exact H].
  - set (next := match historyIndexRef st with
                 | None => 0%Z
                 | Some c => Z.min (c + 1) (Z.of_nat (List.length (commandHistory st)) - 1)
                 end).
    destruct (recall (commandHistory st) next) as [v|] eqn:E; [|exact H].
    destruct (truthy v); [|exact H]. cbn. exact (recall_Some _ _ _ E).
  - destruct (historyIndexRef st) as [c|] eqn:Ei; [|rewrite Ei; exact I].
    destruct (c <=? 0)%Z eqn:Ec; [exact I|]. apply Z.leb_gt in Ec.
    destruct (recall (commandHistory st) (c - 1)) as [v|]; [destruct (truthy v)|];
      cbn; lia.
Qed.

Lemma step_recall (st : Session) (e : Event) :
  cursor_ok st /\ recall_ok st ->
  cursor_ok (step cm K st e) /\ recall_ok (step cm K st e).
Proof.
  intros [Hc Hr]. destruct e as [value | env | key]; cbn [step].
  - split; assumption.
  - unfold cursor_ok, recall_ok in *.
    rewrite handleSubmit_cursor, handleSubmit_commandHistory.
    destruct (truthy (trim (inputValue st))) eqn:Et.
    + split; [exact I|]. apply Forall_remember; [|exact Hr].
      split; [apply truthy_true, Et | apply trim_idem].
    + split; assumption.
  - split; [apply handleKeyDown_cursor, Hc|]. unfold recall_ok.
    rewrite (proj1 (proj2 (handleKeyDown_frame key st))). exact Hr.
Qed.

(** X9: at any point of a session every line of the recall buffer is trimmed
    and not empty, and the recall cursor, when there is one, is the index of
    a line of the buffer. *)
Theorem recall_cursor_invariant (events : list Event) :
  let st := run cm K events initialSession in
  Forall (fun line => line <> [] /\ trim line = line) (commandHistory st)
  /\ match historyIndexRef st with
     | None => True
     | Some i => (0 <= i < Z.of_nat (List.length (commandHistory st)))%Z
     end.
Proof.
  intros st. subst st.
  assert (G : forall st, cursor_ok st /\ recall_ok st ->
                         cursor_ok (run cm K events st) /\ recall_ok (run cm K events st)).
  { induction events as [|e events IH]; intros st H; [exact H|].
    cbn [run fold_left]. apply IH, step_recall, H. }
  destruct (G initialSession) as [Hc Hr].
  - split; [exact I | constructor].
  - split; [exact Hr | exact Hc].
Qed.

Lemma presses_frame (key : Key) (n : nat) (st : Session) :
  history (presses key n st) = history st
  /\ pendingState (presses key n st) = pendingState st
  /\ sessionStats (presses key n st) = sessionStats st
  /\ commandHistory (presses key n st) = commandHistory st.
Proof.
  induction n as [|n IH]; [repeat split|].
  unfold presses in *. rewrite Nat.iter_succ.
  destruct (handleKeyDown_frame key (Nat.iter n (handleKeyDown key) st))
    as (H1 & H2 & H3 & H4).
  destruct IH as (I1 & I2 & I3 & I4).
  rewrite H1, H2, H3, H4. repeat split; assumption.
Qed.

(** X10: the arrow keys touch the input and the cursor only: however often
    a key is pressed, the history, the pending question, the statistics and
    the recall buffer stay as they were. *)
Theorem keys_leave_the_session (key : Key) (n : nat) (st : Session) :
  let st' := presses key n st in
  history st' = history st
  /\ pendingState st' = pendingState st
  /\ sessionStats st' = sessionStats st
  /\ commandHistory st' = commandHistory st.
Proof. exact (presses_frame key n st). Qed.

Lemma ArrowUp_step (st : Session) (next : Z) :
  recall_ok st ->
  (0 <= next < Z.of_nat (List.length (commandHistory st)))%Z ->
  next = match historyIndexRef st with
         | None => 0%Z
         | Some c => Z.min (c + 1) (Z.of_nat (List.length (commandHistory st)) - 1)
         end ->
  handleKeyDown ArrowUp st
  = setHistoryIndex (Some next)
      (setInputValue (nth (Z.to_nat next) (commandHistory st) []) st).
Proof.
  intros Hr Hn E. unfold handleKeyDown. rewrite <- E.
  rewrite (recall_nth _ _ Hn), (nth_truthy _ _ Hr); [reflexivity | lia].
Qed.

(** X11: from a session with no recall cursor and a recall buffer of [len]
    lines (len > 0), pressing the up arrow [n + 1] times puts line number
    [min n (len - 1)] of the buffer into the input and the cursor on it: the
    walk goes one line back per press and stops at the oldest line. *)
Theorem arrow_up_walks_back (st : Session) (n : nat) :
  Forall (fun line => line <> [] /\ trim line = line) (commandHistory st) ->
  commandHistory st <> [] ->
  historyIndexRef st = None ->
  let last := Nat.min n (List.length (commandHistory st) - 1) in
  let st' := presses ArrowUp (S n) st in
  historyIndexRef st' = Some (Z.of_nat last)
  /\ inputValue st' = nth last (commandHistory st) [].
Proof.
  intros Hr Hne Hc. cbv zeta.
  assert (Hlen : (0 < List.length (commandHistory st))%nat).
  { destruct (commandHistory st); [contradiction | cbn; lia]. }
  induction n as [|n IH].
  - unfold presses. rewrite Nat.iter_succ. cbn [Nat.iter nat_rect].
    rewrite (ArrowUp_step st 0 Hr); [| lia | rewrite Hc; reflexivity].
    cbn. split; reflexivity.
  - unfold presses in *. rewrite !Nat.iter_succ. rewrite Nat.iter_succ in IH.
    assert (Hb : commandHistory (handleKeyDown ArrowUp (Nat.iter n (handleKeyDown ArrowUp) st))
                 = commandHistory st).
    { rewrite <- Nat.iter_succ. apply (presses_frame ArrowUp (S n) st). }
    remember (handleKeyDown ArrowUp (Nat.iter n (handleKeyDown ArrowUp) st)) as s eqn:Es.
    clear Es. destruct IH as [Ic Ii].
    assert (Hrs : recall_ok s) by (unfold recall_ok; rewrite Hb; exact Hr).
    rewrite (ArrowUp_step s (Z.of_nat (Nat.min (S n) (List.length (commandHistory st) - 1)))
               Hrs).
    + cbn. rewrite Nat2Z.id, Hb. split; reflexivity.
    + rewrite Hb. lia.
    + rewrite Ic, Hb. lia.
Qed.

Lemma ArrowDown_step (st : Session) (c : Z) :
  recall_ok st ->
  historyIndexRef st = Some c ->
  (0 < c < Z.of_nat (List.length (commandHistory st)))%Z ->
  handleKeyDown ArrowDown st
  = setHistoryIndex (Some (c - 1)%Z)
      (setInputValue (nth (Z.to_nat (c - 1)) (commandHistory st) []) st).
Proof.
  intros Hr Hc Hb. unfold handleKeyDown. rewrite Hc.
  destruct (c <=? 0)%Z eqn:E; [apply Z.leb_le in E; lia|].
  rewrite recall_nth by lia. rewrite (nth_truthy _ _ Hr) by lia. reflexivity.
Qed.

(** X12: the down arrow undoes the up arrow, where the up arrow did
    something.  From a line [i] of the recall buffer that is not the oldest,
    up and then down comes back to line [i], shown in the input.  With no
    cursor and a recall buffer that is not empty, up and then down leaves no
    cursor and an empty input, whatever had been typed.  With no cursor and
    an empty recall buffer neither key does anything: what was typed stays.
    With no cursor the down arrow alone does nothing. *)
Theorem arrow_down_undoes_arrow_up (st : Session) :
  Forall (fun line => line <> [] /\ trim line = line) (commandHistory st) ->
  let st' := handleKeyDown ArrowDown (handleKeyDown ArrowUp st) in
  match historyIndexRef st with
  | None =>
    handleKeyDown ArrowDown st = st
    /\ (commandHistory st = [] -> handleKeyDown ArrowUp st = st /\ st' = st)
    /\ (commandHistory st <> [] ->
        historyIndexRef st' = None /\ inputValue st' = []
        /\ inputValue (handleKeyDown ArrowUp st) = nth 0 (commandHistory st) [])
  | Some i =>
    (0 <= i)%Z -> (i + 1 < Z.of_nat (List.length (commandHistory st)))%Z ->
    historyIndexRef st' = Some i
    /\ inputValue st' = nth (Z.to_nat i) (commandHistory st) []
  end.
Proof.
  intros Hr. cbv zeta.
  destruct (historyIndexRef st) as [i|] eqn:Hc.
  - intros H0 H1.
    rewrite (ArrowUp_step st (i + 1) Hr); [| lia | rewrite Hc; lia].
    rewrite (ArrowDown_step _ (i + 1)); [| exact Hr | reflexivity | cbn; lia].
    cbn. replace (i + 1 - 1)%Z with i by lia. split; reflexivity.
  - assert (Hd : handleKeyDown ArrowDown st = st).
    { unfold handleKeyDown. rewrite Hc. reflexivity. }
    split; [exact Hd|]. split.
    + intros He.
      assert (Hu : handleKeyDown ArrowUp st = st).
      { unfold handleKeyDown. rewrite Hc, He. reflexivity. }
      rewrite Hu. split; [reflexivity | exact Hd].
    + intros Hne.
      assert (Hlen : (0 < List.length (commandHistory st))%nat).
      { destruct (commandHistory st); [contradiction | cbn; lia]. }
      rewrite (ArrowUp_step st 0 Hr); [| lia | rewrite Hc; reflexivity].
      split; [reflexivity|]. split; reflexivity.
Qed.

(** X13: the up arrow, pressed right after a line was accepted, brings that
    line back, trimmed, into the input, with the cursor on the first line of
    the recall buffer. *)
Theorem arrow_up_recalls_the_last_line (env : Env) (line : jsstring) (st : Session) :
  trim line <> [] ->
  let st' := handleKeyDown ArrowUp (submitLine cm K env line st) in
  inputValue st' = trim line /\ historyIndexRef st' = Some 0%Z.
Proof.
  intros Hne. cbv zeta.
  assert (Hb : commandHistory (submitLine cm K env line st)
               = trim line :: firstn 29 (filter (other_than (trim line)) (commandHistory st))).
  { rewrite submitLine_commandHistory, (proj2 (truthy_true _) Hne). reflexivity. }
  assert (Hc : historyIndexRef (submitLine cm K env line st) = None).
  { unfold submitLine. rewrite handleSubmit_cursor.
    change (inputValue (setInputValue line st)) with line.
    rewrite (proj2 (truthy_true _) Hne). reflexivity. }
  unfold handleKeyDown. rewrite Hc, Hb. cbn [recall Z.ltb Z.compare Z.to_nat nth_error].
  rewrite (proj2 (truthy_true _) Hne). split; reflexivity.
Qed.

End Keys.

Lemma arrow_up_walks_back_witness :
  inputValue (presses ArrowUp 2 threeCommands) = lit "topics"
  /\ inputValue (presses ArrowUp 7 threeCommands) = lit "help".
Proof.
  split.
  - refine (proj2 (arrow_up_walks_back threeCommands 1 _ _ _)).
    + vm_compute. repeat constructor; discriminate.
    + vm_compute; discriminate.
    + reflexivity.
  - refine (proj2 (arrow_up_walks_back threeCommands 6 _ _ _)).
    + vm_compute. repeat constructor; discriminate.
    + vm_compute; discriminate.
    + reflexivity.
Defined.

Lemma arrow_down_undoes_arrow_up_witness :
  inputValue
    (handleKeyDown ArrowDown
       (handleKeyDown ArrowUp (setInputValue (lit "a draft") threeCommands)))
  = []
  /\ inputValue
       (handleKeyDown ArrowDown
          (handleKeyDown ArrowUp (setInputValue (lit "a draft") initialSession)))
     = lit "a draft".
Proof.
  split.
  - refine (proj1 (proj2 (proj2 (proj2
      (arrow_down_undoes_arrow_up (setInputValue (lit "a draft") threeCommands) _))
      _))).
    + vm_compute. repeat constructor; discriminate.
    + vm_compute; discriminate.
  - rewrite (proj2 (proj1 (proj2
      (arrow_down_undoes_arrow_up (setInputValue (lit "a draft") initialSession)
         (Forall_nil _)))
      eq_refl)).
    reflexivity.
Defined.

Lemma arrow_up_recalls_the_last_line_witness :
  inputValue
    (handleKeyDown ArrowUp
       (submitLine demoCase demoKnowledge demoEnv (lit "  tcp ") quizActive))
  = lit "tcp".
Proof.
  refine (proj1 (arrow_up_recalls_the_last_line demoCase demoKnowledge demoEnv
                   (lit "  tcp ") quizActive _)).
  vm_compute; discriminate.
Defined.

(** ** What the commands answer *)

Lemma lastReply_reply (env : Env) (lines : list jsstring) (st : Session) :
  lastReply (showAssistant (replyEntryId env) lines st) = lines.
Proof.
  unfold lastReply, showAssistant, addEntry. cbn [history setHistory].
  rewrite last_last. reflexivity.
Qed.

(** Goes to the [case] of a command whose word is known to be in a group. *)
Ltac dispatch Hne Hk :=
  unfold handleCommand, normalizeInput; rewrite trim_idem;
  rewrite (proj2 (truthy_true _) Hne); cbn [negb]; cbv zeta;
  let l := fresh "l" in
  let Hin := fresh "Hin" in
  let E := fresh "E" in
  apply one_of_In in Hk; destruct Hk as (l & Hin & Hk); rewrite Hk;
  cbn [In] in Hin;
  repeat (destruct Hin as [E | Hin]; [subst l|]); try contradiction;
  rewrite_guards.

Section Answers.

Variable cm : CaseMapping.
Variable K : Knowledge.

(** X14: [lesson] (or [tema], [topic]), with no question pending.  Without
    an argument the reply is the usage line.  With one: the profile of the
    topic the argument names; or, when it names none, the topics the search
    finds, as suggestions, one line each; or, when the search finds none
    either, the not-found line quoting the argument.  In no case does a
    question become pending. *)
Theorem lesson_command (env : Env) (line : jsstring) (st : Session) :
  pendingState st = None ->
  trim line <> [] ->
  one_of (commandKey cm (trim line)) ["lesson"; "tema"; "topic"] = true ->
  let arg := argString (trim line) in
  let st' := submitLine cm K env line st in
  pendingState st' = None
  /\ (arg = [] ->
      lastReply st' = [lit "Debes indicar un tema. Ejemplo: `lesson redes`"])
  /\ (forall topic,
        arg <> [] -> findTopicByAlias K arg = Some topic ->
        lastReply st' = summarizeTopic cm topic)
  /\ (arg <> [] -> findTopicByAlias K arg = None -> searchTopics K arg = [] ->
      lastReply st'
      = [lit "No encontré un tema llamado " ++ dquote ++ arg ++ dquote
         ++ lit ". Usa `topics` para ver opciones."])
  /\ (arg <> [] -> findTopicByAlias K arg = None -> searchTopics K arg <> [] ->
      lastReply st'
      = lit "No encontré coincidencia exacta. ¿Quizás buscas alguno de estos?"
        :: map (fun item => lit "- " ++ Topic.id item ++ lit ": " ++ Topic.title item)
             (searchTopics K arg)).
Proof.
  intros Hp Hne Hk arg st'. subst st'.
  rewrite (submitLine_command cm K env line st Hp Hne).
  assert (E : handleCommand cm K env (setInputValue line st) (trim line)
                (accept env (trim line) (setInputValue line st))
              = showAssistant (replyEntryId env)
                  (if negb (truthy arg) then
                     [lit "Debes indicar un tema. Ejemplo: `lesson redes`"]
                   else match findTopicByAlias K arg with
                        | Some topic => summarizeTopic cm topic
                        | None =>
                          match searchTopics K arg with
                          | [] =>
                            [lit "No encontré un tema llamado " ++ dquote ++ arg ++ dquote
                             ++ lit ". Usa `topics` para ver opciones."]
                          | _ :: _ =>
                            lit "No encontré coincidencia exacta. ¿Quizás buscas alguno de estos?"
                            :: map (fun item => lit "- " ++ Topic.id item ++ lit ": "
                                                ++ Topic.title item)
                                 (searchTopics K arg)
                          end
                        end)
                  (accept env (trim line) (setInputValue line st))).
  { subst arg. dispatch Hne Hk;
      destruct (negb (truthy (argString (trim line)))); try reflexivity;
      destruct (findTopicByAlias K (argString (trim line))); try reflexivity;
      destruct (searchTopics K (argString (trim line))); reflexivity. }
  rewrite E, lastReply_reply. split; [exact Hp|].
  split; [|split; [|split]].
  - intros Ha. rewrite Ha. reflexivity.
  - intros topic Ha Hf. rewrite (proj2 (truthy_true _) Ha), Hf. reflexivity.
  - intros Ha Hf Hs. rewrite (proj2 (truthy_true _) Ha), Hf, Hs. reflexivity.
  - intros Ha Hf Hs. rewrite (proj2 (truthy_true _) Ha), Hf.
    destruct (searchTopics K arg); [contradiction | reflexivity].
Qed.

(** X15: [search] (or [buscar]), with no question pending.  Without an
    argument the reply is the usage line; when nothing matches, the
    no-match line quoting the argument; otherwise a header with the number
    of matches followed by one line per match, in the order of the search. *)
Theorem search_command (env : Env) (line : jsstring) (st : Session) :
  pendingState st = None ->
  trim line <> [] ->
  one_of (commandKey cm (trim line)) ["search"; "buscar"] = true ->
  let arg := argString (trim line) in
  let st' := submitLine cm K env line st in
  pendingState st' = None
  /\ (arg = [] -> lastReply st' = [lit "Incluye un término. Ejemplo: `search mitre`"])
  /\ (arg <> [] -> searchTopics K arg = [] ->
      lastReply st'
      = [lit "No hay coincidencias para " ++ dquote ++ arg ++ dquote
         ++ lit ". Intenta con otro término."])
  /\ (arg <> [] -> searchTopics K arg <> [] ->
      lastReply st'
      = (lit "Resultados (" ++ toString (N.of_nat (List.length (searchTopics K arg)))
         ++ lit "):")
        :: map (fun result =>
                  Topic.id result ++ lit " -> " ++ Topic.title result
                  ++ lit " | " ++ Topic.summary result)
             (searchTopics K arg)).
Proof.
  intros Hp Hne Hk arg st'. subst st'.
  rewrite (submitLine_command cm K env line st Hp Hne).
  assert (E : handleCommand cm K env (setInputValue line st) (trim line)
                (accept env (trim line) (setInputValue line st))
              = showAssistant (replyEntryId env)
                  (if negb (truthy arg) then
                     [lit "Incluye un término. Ejemplo: `search mitre`"]
                   else match searchTopics K arg with
                        | [] =>
                          [lit "No hay coincidencias para " ++ dquote ++ arg ++ dquote
                           ++ lit ". Intenta con otro término."]
                        | _ :: _ =>
                          (lit "Resultados ("
                           ++ toString (N.of_nat (List.length (searchTopics K arg)))
                           ++ lit "):")
                          :: map (fun result =>
                                    Topic.id result ++ lit " -> " ++ Topic.title result
                                    ++ lit " | " ++ Topic.summary result)
                               (searchTopics K arg)
                        end)
                  (accept env (trim line) (setInputValue line st))).
  { subst arg. dispatch Hne Hk;
      destruct (negb (truthy (argString (trim line)))); try reflexivity;
      destruct (searchTopics K (argString (trim line))); reflexivity. }
  rewrite E, lastReply_reply. split; [exact Hp|].
  split; [|split].
  - intros Ha. rewrite Ha. reflexivity.
  - intros Ha Hs. rewrite (proj2 (truthy_true _) Ha), Hs. reflexivity.
  - intros Ha Hs. rewrite (proj2 (truthy_true _) Ha).
    destruct (searchTopics K arg); [contradiction | reflexivity].
Qed.

(** X16: [glossary] (or [glosario]), with no question pending.  Without an
    argument the reply has one line per entry of the glossary; a term the
    lookup does not find gets the not-found line quoting it; a term it finds
    gets its definition and its context. *)
Theorem glossary_command (env : Env) (line : jsstring) (st : Session) :
  pendingState st = None ->
  trim line <> [] ->
  one_of (commandKey cm (trim line)) ["glossary"; "glosario"] = true ->
  let arg := argString (trim line) in
  let st' := submitLine cm K env line st in
  pendingState st' = None
  /\ (arg = [] ->
      lastReply st'
      = map (fun entry =>
               GlossaryEntry.term entry ++ lit ": " ++ GlossaryEntry.definition entry)
          (glossary K)
      /\ List.length (lastReply st') = List.length (glossary K))
  /\ (arg <> [] -> lookupGlossary K arg = None ->
      lastReply st'
      = [lit "No encontré " ++ dquote ++ arg ++ dquote
         ++ lit ". Usa `glossary` para listar conceptos."])
  /\ (forall entry,
        arg <> [] -> lookupGlossary K arg = Some entry ->
        lastReply st'
        = [GlossaryEntry.term entry ++ lit ": " ++ GlossaryEntry.definition entry;
           lit "Contexto: " ++ GlossaryEntry.context entry]).
Proof.
  intros Hp Hne Hk arg st'. subst st'.
  rewrite (submitLine_command cm K env line st Hp Hne).
  assert (E : handleCommand cm K env (setInputValue line st) (trim line)
                (accept env (trim line) (setInputValue line st))
              = showAssistant (replyEntryId env)
                  (if negb (truthy arg) then
                     map (fun entry =>
                            GlossaryEntry.term entry ++ lit ": "
                            ++ GlossaryEntry.definition entry)
                       (glossary K)
                   else match lookupGlossary K arg with
                        | None =>
                          [lit "No encontré " ++ dquote ++ arg ++ dquote
                           ++ lit ". Usa `glossary` para listar conceptos."]
                        | Some entry =>
                          [GlossaryEntry.term entry ++ lit ": "
                           ++ GlossaryEntry.definition entry;
                           lit "Contexto: " ++ GlossaryEntry.context entry]
                        end)
                  (accept env (trim line) (setInputValue line st))).
  { subst arg. dispatch Hne Hk;
      destruct (negb (truthy (argString (trim line)))); try reflexivity;
      destruct (lookupGlossary K (argString (trim line))); reflexivity. }
  rewrite E, lastReply_reply. split; [exact Hp|].
  split; [|split].
  - intros Ha. rewrite Ha. cbn [truthy negb]. split; [reflexivity|].
    apply length_map.
  - intros Ha Hs. rewrite (proj2 (truthy_true _) Ha), Hs. reflexivity.
  - intros entry Ha Hs. rewrite (proj2 (truthy_true _) Ha), Hs. reflexivity.
Qed.

End Answers.

Lemma lesson_command_witness :
  lastReply (submitLine demoCase demoKnowledge demoEnv (lit "lesson doesnotexist123")
               initialSession)
  = [lit "No encontré un tema llamado " ++ dquote ++ lit "doesnotexist123" ++ dquote
     ++ lit ". Usa `topics` para ver opciones."].
Proof.
  refine (proj1 (proj2 (proj2 (proj2
    (lesson_command demoCase demoKnowledge demoEnv (lit "lesson doesnotexist123")
       initialSession _ _ _)))) _ _ _).
  - reflexivity.
  - vm_compute; discriminate.
  - vm_compute; reflexivity.
  - vm_compute; discriminate.
  - vm_compute; reflexivity.
  - vm_compute; reflexivity.
Defined.

Lemma search_command_witness :
  lastReply (submitLine demoCase demoKnowledge demoEnv (lit "buscar") initialSession)
  = [lit "Incluye un término. Ejemplo: `search mitre`"].
Proof.
  refine (proj1 (proj2
    (search_command demoCase demoKnowledge demoEnv (lit "buscar") initialSession _ _ _))
    _).
  - reflexivity.
  - vm_compute; discriminate.
  - vm_compute; reflexivity.
  - vm_compute; reflexivity.
Defined.

Lemma glossary_command_witness :
  lastReply (submitLine demoCase demoKnowledge demoEnv (lit "glossary xss") initialSession)
  = [lit "No encontré " ++ dquote ++ lit "xss" ++ dquote
     ++ lit ". Usa `glossary` para listar conceptos."].
Proof.
  refine (proj1 (proj2 (proj2
    (glossary_command demoCase demoKnowledge demoEnv (lit "glossary xss") initialSession
       _ _ _))) _ _).
  - reflexivity.
  - vm_compute; discriminate.
  - vm_compute; reflexivity.
  - vm_compute; discriminate.
  - vm_compute; reflexivity.
Defined.

(** ** Starting a question *)

Section Start.

Variable cm : CaseMapping.
Variable K : Knowledge.

Lemma pickQuizQuestion_topic (rnd : number) (alias : jsstring) (topic : Topic.t)
    (q : QuizQuestion.t) :
  alias <> [] -> findTopicByAlias K alias = Some topic -> Topic.quiz topic <> [] ->
  pickQuizQuestion K rnd alias = Some q -> In q (Topic.quiz topic).
Proof.
  intros Ha Hf Hq. unfold pickQuizQuestion. cbv zeta.
  rewrite (proj2 (truthy_true _) Ha), Hf.
  destruct (Topic.quiz topic) eqn:E; [contradiction|]. rewrite <- E.
  apply pickRandom_In.
Qed.

Lemma pickQuizQuestion_none (rnd : number) (alias : jsstring) :
  getAllQuizQuestions K = [] ->
  (forall topic, findTopicByAlias K alias = Some topic -> Topic.quiz topic = []) ->
  pickQuizQuestion K rnd alias = None.
Proof.
  intros Hall Ht. unfold pickQuizQuestion. cbv zeta. rewrite Hall.
  destruct (truthy alias); [|reflexivity].
  destruct (findTopicByAlias K alias) as [topic|] eqn:E; [|reflexivity].
  rewrite (Ht topic eq_refl). reflexivity.
Qed.

(** X17: [quiz] (or [reto]), with no question pending.  When a question is
    picked it becomes the pending one, with no failed try and no hint, the
    reply shows its prompt first and the statistics stay; it is a question
    of the topic the argument names when that topic has any.  When no
    question is picked the reply says so and nothing is pending; this is
    what happens when the store has no question at all. *)
Theorem quiz_command (env : Env) (line : jsstring) (st : Session) :
  pendingState st = None ->
  trim line <> [] ->
  one_of (commandKey cm (trim line)) ["quiz"; "reto"] = true ->
  let arg := argString (trim line) in
  let st' := submitLine cm K env line st in
  sessionStats st' = sessionStats st
  /\ (forall q,
        pickQuizQuestion K (random env) arg = Some q ->
        pendingState st'
        = Some {| question := q; attempts := 0; revealedHint := false |}
        /\ hd_error (lastReply st') = Some (lit "Pregunta: " ++ QuizQuestion.prompt q)
        /\ (forall topic,
              arg <> [] -> findTopicByAlias K arg = Some topic ->
              Topic.quiz topic <> [] -> In q (Topic.quiz topic)))
  /\ (pickQuizQuestion K (random env) arg = None ->
      pendingState st' = None
      /\ lastReply st' = [lit "No hay preguntas disponibles por ahora."])
  /\ (getAllQuizQuestions K = [] ->
      (forall topic, findTopicByAlias K arg = Some topic -> Topic.quiz topic = []) ->
      pendingState st' = None
      /\ lastReply st' = [lit "No hay preguntas disponibles por ahora."]).
Proof.
  intros Hp Hne Hk arg st'. subst st'.
  rewrite (submitLine_command cm K env line st Hp Hne).
  split; [rewrite (proj1 (handleCommand_frame cm K _ _ _ _)); reflexivity|].
  assert (E : handleCommand cm K env (setInputValue line st) (trim line)
                (accept env (trim line) (setInputValue line st))
              = match pickQuizQuestion K (random env) arg with
                | None =>
                  showAssistant (replyEntryId env)
                    [lit "No hay preguntas disponibles por ahora."]
                    (accept env (trim line) (setInputValue line st))
                | Some question =>
                  setPendingState
                    (Some {| question := question; attempts := 0; revealedHint := false |})
                    (showAssistant (replyEntryId env)
                       ([lit "Pregunta: " ++ QuizQuestion.prompt question]
                        ++ match QuizQuestion.choices question with
                           | Some choices => [lit "Opciones: " ++ join (lit " | ") choices]
                           | None => []
                           end
                        ++ [lit "Responde, pide `hint` para una pista o escribe `skip` para saltar."])
                       (accept env (trim line) (setInputValue line st)))
                end).
  { subst arg. dispatch Hne Hk; reflexivity. }
  rewrite E.
  assert (Hnone : pickQuizQuestion K (random env) arg = None ->
                  pendingState
                    match pickQuizQuestion K (random env) arg with
                    | None =>
                      showAssistant (replyEntryId env)
                        [lit "No hay preguntas disponibles por ahora."]
                        (accept env (trim line) (setInputValue line st))
                    | Some question =>
                      setPendingState
                        (Some {| question := question; attempts := 0;
                                 revealedHint := false |})
                        (showAssistant (replyEntryId env)
                           ([lit "Pregunta: " ++ QuizQuestion.prompt question]
                            ++ match QuizQuestion.choices question with
                               | Some choices =>
                                 [lit "Opciones: " ++ join (lit " | ") choices]
                               | None => []
                               end
                            ++ [lit "Responde, pide `hint` para una pista o escribe `skip` para saltar."])
                           (accept env (trim line) (setInputValue line st)))
                    end = None
                  /\ lastReply
                       match pickQuizQuestion K (random env) arg with
                       | None =>
                         showAssistant (replyEntryId env)
                           [lit "No hay preguntas disponibles por ahora."]
                           (accept env (trim line) (setInputValue line st))
                       | Some question =>
                         setPendingState
                           (Some {| question := question; attempts := 0;
                                    revealedHint := false |})
                           (showAssistant (replyEntryId env)
                              ([lit "Pregunta: " ++ QuizQuestion.prompt question]
                               ++ match QuizQuestion.choices question with
                                  | Some choices =>
                                    [lit "Opciones: " ++ join (lit " | ") choices]
                                  | None => []
                                  end
                               ++ [lit "Responde, pide `hint` para una pista o escribe `skip` para saltar."])
                              (accept env (trim line) (setInputValue line st)))
                       end
                     = [lit "No hay preguntas disponibles por ahora."]).
  { intros Hn. rewrite Hn. split; [exact Hp | apply lastReply_reply]. }
  split; [|split].
  - intros q Hq. rewrite Hq. split; [reflexivity|]. split.
    + unfold lastReply. session_cbn. rewrite last_last. reflexivity.
    + intros topic Ha Hf Hnq. exact (pickQuizQuestion_topic _ _ _ _ Ha Hf Hnq Hq).
  - exact Hnone.
  - intros Hall Ht. apply Hnone, pickQuizQuestion_none; assumption.
Qed.

(** X18: [question] (or [pregunta]) with an argument answers about the topic
    the free text matches, or about the first topic of the store when it
    matches none; the answer names that topic and lists at most three of its
    fundamentals, so it has between 8 and 11 lines.  There is no answer only
    when nothing matches and the store has no topic. *)
Theorem question_falls_back_to_first_topic (query : jsstring) :
  (forall lines,
     answerNaturalQuestion K query = Some lines ->
     exists topic,
       (matchQuestionToTopic K query = Some topic
        \/ (matchQuestionToTopic K query = None /\ hd_error (topics K) = Some topic))
       /\ hd_error lines = Some (lit "Tema sugerido: " ++ Topic.title topic)
       /\ List.length lines
          = (8 + Nat.min 3 (List.length (Topic.fundamentals topic)))%nat)
  /\ (answerNaturalQuestion K query = None <->
      matchQuestionToTopic K query = None /\ topics K = []).
Proof.
  unfold answerNaturalQuestion. split.
  - intros lines H.
    assert (G : forall topic,
              List.length
                ([lit "Tema sugerido: " ++ Topic.title topic;
                  lit "Resumen: " ++ Topic.summary topic; lit ""; lit "Puntos clave:"]
                 ++ formatBullets (firstn 3 (Topic.fundamentals topic))
                 ++ [lit ""; lit "Recomendación:";
                     lit "• Revisa la lección con `lesson " ++ Topic.id topic ++ lit "`.";
                     lit "• Programa un laboratorio práctico con `labs " ++ Topic.id topic
                     ++ lit "`."])
              = (8 + Nat.min 3 (List.length (Topic.fundamentals topic)))%nat).
    { intros topic. rewrite !length_app. unfold formatBullets.
      rewrite length_map, length_firstn. cbn [List.length]. lia. }
    destruct (matchQuestionToTopic K query) as [t|] eqn:Em.
    + injection H as <-. exists t. split; [left; reflexivity|].
      split; [reflexivity | apply G].
    + destruct (topics K) as [|t ts] eqn:Et; [discriminate|]. cbn [nth_error] in H.
      injection H as <-. exists t. split; [right; split; reflexivity|].
      split; [reflexivity | apply G].
  - destruct (matchQuestionToTopic K query) as [t|].
    + split; [discriminate | intros [H _]; discriminate].
    + destruct (topics K) as [|t ts]; cbn [nth_error].
      * split; [auto | reflexivity].
      * split; [discriminate | intros [_ H]; discriminate].
Qed.

End Start.

Lemma quiz_command_witness :
  pendingState (submitLine demoCase demoKnowledge demoEnv (lit "reto redes") initialSession)
  = Some {| question := demoQuestion; attempts := 0; revealedHint := false |}.
Proof.
  refine (proj1 (proj1 (proj2
    (quiz_command demoCase demoKnowledge demoEnv (lit "reto redes") initialSession
       _ _ _)) demoQuestion _)).
  - reflexivity.
  - vm_compute; discriminate.
  - vm_compute; reflexivity.
  - vm_compute; reflexivity.
Defined.

Lemma question_falls_back_to_first_topic_witness :
  exists topic,
    (matchQuestionToTopic demoKnowledge (lit "diferencia entre ids e ips") = Some topic
     \/ (matchQuestionToTopic demoKnowledge (lit "diferencia entre ids e ips") = None
         /\ hd_error (topics demoKnowledge) = Some topic))
    /\ hd_error
         [ lit "Tema sugerido: Redes";
           lit "Resumen: Protocolos, segmentación y monitoreo.";
           lit ""; lit "Puntos clave:"; lit "• Modelo OSI"; lit "• TCP/IP"; lit "";
           lit "Recomendación:";
           lit "• Revisa la lección con `lesson redes`.";
           lit "• Programa un laboratorio práctico con `labs redes`." ]
       = Some (lit "Tema sugerido: " ++ Topic.title topic)
    /\ List.length
         [ lit "Tema sugerido: Redes";
           lit "Resumen: Protocolos, segmentación y monitoreo.";
           lit ""; lit "Puntos clave:"; lit "• Modelo OSI"; lit "• TCP/IP"; lit "";
           lit "Recomendación:";
           lit "• Revisa la lección con `lesson redes`.";
           lit "• Programa un laboratorio práctico con `labs redes`." ]
       = (8 + Nat.min 3 (List.length (Topic.fundamentals topic)))%nat.
Proof.
  refine (proj1 (question_falls_back_to_first_topic demoKnowledge
                   (lit "diferencia entre ids e ips")) _ _).
  vm_compute. reflexivity.
Defined.

(** ** The help table and the lists *)

(** X19: the help table and the dispatcher agree: each of the 13 commands
    the table shows is handled by a [case] of the dispatcher (its first
    word is a command word), each [case] group is shown by some line of
    the table, and every command of the table fits the 18 columns it is
    padded to, so the descriptions line up. *)
Theorem help_matches_the_dispatcher (cm : CaseMapping) :
  List.length helpCards = 13%nat
  /\ Forall (fun card =>
               one_of (commandKey cm (normalizeInput (fst card))) commands = true
               /\ List.length (padEnd 18 (fst card)) = 18%nat)
       helpCards
  /\ Forall (fun group =>
               Exists (fun card =>
                         one_of (commandKey cm (normalizeInput (fst card))) group = true)
                 helpCards)
       aliases.
Proof.
  split; [reflexivity|]. split.
  - unfold helpCards. repeat constructor; vm_compute; reflexivity.
  - assert (G : forallb (fun group =>
                           existsb (fun card =>
                                      one_of (commandKey cm (normalizeInput (fst card))) group)
                             helpCards) aliases = true).
    { vm_compute. reflexivity. }
    rewrite forallb_forall in G. apply Forall_forall. intros group Hg.
    specialize (G group Hg). apply existsb_exists in G. apply Exists_exists. exact G.
Qed.

Lemma mapi_from_nth {A B} (f : A -> N -> B) (l : list A) (i : N) (k : nat) (x : A) :
  nth_error l k = Some x ->
  nth_error (mapi_from i f l) k = Some (f x (i + N.of_nat k)%N).
Proof.
  revert i k. induction l as [|y l IH]; intros i k H.
  - destruct k; discriminate.
  - destruct k as [|k]; cbn [mapi_from nth_error] in *.
    + injection H as ->. rewrite N.add_0_r. reflexivity.
    + rewrite (IH (i + 1)%N k H). f_equal. f_equal. lia.
Qed.

Lemma mapi_from_length {A B} (f : A -> N -> B) (l : list A) (i : N) :
  List.length (mapi_from i f l) = List.length l.
Proof.
  revert i. induction l as [|y l IH]; intros i; [reflexivity|].
  cbn [mapi_from List.length]. rewrite IH. reflexivity.
Qed.

(** X20: [formatList] puts the title first and then the items in order,
    numbered from 1: item number [k] (counting from 0) is on line [k + 1]
    with the number [k + 1] before it. *)
Theorem formatList_numbers_from_one (title : jsstring) (items : list jsstring) :
  List.length (formatList title items) = S (List.length items)
  /\ hd_error (formatList title items) = Some (lit "# " ++ title)
  /\ (forall k item,
        nth_error items k = Some item ->
        nth_error (formatList title items) (S k)
        = Some (lit "  " ++ toString (N.of_nat (S k)) ++ lit ". " ++ item)).
Proof.
  unfold formatList. split; [|split].
  - cbn [List.length]. rewrite mapi_from_length. reflexivity.
  - reflexivity.
  - intros k item H. cbn [nth_error].
    rewrite (mapi_from_nth _ _ _ _ _ H). do 4 f_equal.
    rewrite Nat2N.inj_succ. lia.
Qed.

Lemma formatList_numbers_from_one_witness :
  nth_error (formatList (lit "Ruta") [lit "redes"; lit "web"; lit "forense"]) 3
  = Some (lit "  " ++ toString (N.of_nat 3) ++ lit ". " ++ lit "forense").
Proof.
  refine (proj2 (proj2 (formatList_numbers_from_one (lit "Ruta")
                          [lit "redes"; lit "web"; lit "forense"])) 2%nat _ _).
  reflexivity.
Defined.

Section Listings.

Variable K : Knowledge.

Lemma length_flat_map {A B} (f : A -> list B) (l : list A) :
  List.length (flat_map f l) = list_sum (map (fun x => List.length (f x)) l).
Proof.
  induction l as [|x l IH]; [reflexivity|].
  cbn [flat_map map list_sum]. rewrite length_app, IH. reflexivity.
Qed.

(** X21: the listings leave nothing out.  Without a topic,
    [formatResources] is a header followed, for each topic of the store in
    turn, by its title line and one line per resource (title and address),
    and [formatLabs] a header, one line per lab of each topic in turn, and a
    closing line: the line of every topic, resource and lab of the store is
    there.  For a topic, [formatResources] is a header naming it and one
    line per resource, with the description; [formatLabs] says there is no
    lab when the topic has none, and otherwise shows the first lab only: its
    title line, its goal, its steps and its checklist as bullets. *)
Theorem listings_are_complete :
  let resourceLine := fun resource =>
    lit "  - " ++ Resource.title resource ++ lit ": " ++ Resource.url resource in
  let labLine := fun topic lab =>
    lit "[" ++ Topic.title topic ++ lit "] " ++ Lab.title lab
    ++ lit " (" ++ Lab.difficulty lab ++ lit " · " ++ Lab.time lab
    ++ lit ") -> " ++ Lab.goal lab in
  formatResources K None
  = lit "🔗 Recursos recomendados por temática:"
    :: List.concat
         (map (fun topic =>
                 (lit "> " ++ Topic.title topic)
                 :: map resourceLine (Topic.resources topic))
            (topics K))
  /\ (forall topic resource,
        In topic (topics K) -> In resource (Topic.resources topic) ->
        In (lit "> " ++ Topic.title topic) (formatResources K None)
        /\ In (resourceLine resource) (formatResources K None))
  /\ formatLabs K None
     = lit "🧪 Laboratorios disponibles:"
       :: List.concat
            (map (fun topic => map (labLine topic) (Topic.labs topic)) (topics K))
       ++ [lit "Usa `labs <tema>` para ver pasos detallados."]
  /\ (forall topic lab,
        In topic (topics K) -> In lab (Topic.labs topic) ->
        In (labLine topic lab) (formatLabs K None))
  /\ List.length (formatResources K None)
     = (1 + list_sum (map (fun topic => 1 + List.length (Topic.resources topic))
                        (topics K)))%nat
  /\ List.length (formatLabs K None)
     = (2 + list_sum (map (fun topic => List.length (Topic.labs topic)) (topics K)))%nat
  /\ (forall topic,
        formatResources K (Some topic)
        = (lit "Recursos para " ++ Topic.title topic ++ lit ":")
          :: map (fun resource =>
                    lit "- " ++ Resource.title resource ++ lit ": "
                    ++ Resource.url resource ++ lit " ("
                    ++ Resource.description resource ++ lit ")")
               (Topic.resources topic))
  /\ (forall topic,
        match Topic.labs topic with
        | [] =>
          formatLabs K (Some topic)
          = [lit "Aún no hay laboratorios documentados para " ++ Topic.title topic
             ++ lit "."]
        | lab :: _ =>
          formatLabs K (Some topic)
          = [ lit "🧪 " ++ Lab.title lab ++ lit " | Dificultad: "
              ++ Lab.difficulty lab ++ lit " | Duración: " ++ Lab.time lab;
              lit "Objetivo: " ++ Lab.goal lab;
              lit "";
              lit "Pasos:" ]
            ++ map (fun step => lit "• " ++ step) (Lab.steps lab)
            ++ [lit ""; lit "Checklist de éxito:"]
            ++ map (fun check => lit "• " ++ check) (Lab.checklist lab)
        end).
Proof.
  intros resourceLine labLine.
  split; [|split; [|split; [|split; [|split; [|split; [|split]]]]]].
  - unfold formatResources. rewrite flat_map_concat_map. reflexivity.
  - intros topic resource Ht Hr. unfold formatResources.
    split; right; apply in_flat_map; exists topic; (split; [exact Ht|]).
    + left. reflexivity.
    + right. apply (in_map resourceLine). exact Hr.
  - unfold formatLabs. rewrite flat_map_concat_map. reflexivity.
  - intros topic lab Ht Hl. unfold formatLabs.
    right. apply in_or_app. left. apply in_flat_map. exists topic.
    split; [exact Ht|]. apply (in_map (labLine topic)). exact Hl.
  - unfold formatResources. cbn [List.length]. rewrite length_flat_map.
    cbn [Nat.add]. f_equal. f_equal. apply map_ext. intros topic. cbn [List.length].
    rewrite length_map. reflexivity.
  - unfold formatLabs. cbn [List.length]. rewrite length_app, length_flat_map.
    cbn [List.length].
    replace (map (fun x => List.length
                   (map (fun lab =>
                           lit "[" ++ Topic.title x ++ lit "] " ++ Lab.title lab
                           ++ lit " (" ++ Lab.difficulty lab ++ lit " · " ++ Lab.time lab
                           ++ lit ") -> " ++ Lab.goal lab) (Topic.labs x))) (topics K))
      with (map (fun topic => List.length (Topic.labs topic)) (topics K)).
    + lia.
    + apply map_ext. intros topic. rewrite length_map. reflexivity.
  - intros topic. reflexivity.
  - intros topic. unfold formatLabs. destruct (Topic.labs topic) as [|lab rest];
      reflexivity.
Qed.

End Listings.

Lemma listings_are_complete_witness :
  In (lit "> Redes") (formatResources demoKnowledge None)
  /\ In (lit "  - Wireshark: https://www.wireshark.org") (formatResources demoKnowledge None).
Proof.
  pose proof (proj1 (proj2 (listings_are_complete demoKnowledge)) demoTopic
                {| Resource.title := lit "Wireshark";
                   Resource.url := lit "https://www.wireshark.org";
                   Resource.description := lit "Analizador de tráfico" |}
                (or_introl eq_refl) (or_introl eq_refl)) as H.
  match type of H with
  | In ?a _ /\ In ?b _ =>
    assert (E1 : lit "> Redes" = a) by (vm_compute; reflexivity);
    assert (E2 : lit "  - Wireshark: https://www.wireshark.org" = b)
      by (vm_compute; reflexivity)
  end.
  rewrite E1, E2. exact H.
Defined.

Example listings_of_the_demo_store :
  formatResources demoKnowledge None
  = [ lit "🔗 Recursos recomendados por temática:";
      lit "> Redes";
      lit "  - Wireshark: https://www.wireshark.org" ]
  /\ formatLabs demoKnowledge None
     = [ lit "🧪 Laboratorios disponibles:";
         lit "[Redes] Captura de tráfico (Básico · 30 min) -> Identificar un handshake";
         lit "Usa `labs <tema>` para ver pasos detallados." ].
Proof. split; vm_compute; reflexivity. Qed.

(** ** Rounds and the status line *)

Section Rounds.

Variable cm : CaseMapping.
Variable K : Knowledge.

(** The reply that ends a round shows the explanation and the status line
    of the statistics it leaves. *)
Lemma handleQuizAnswer_resolution (env : Env) (snap st : Session) (v : jsstring)
    (p : Pending) :
  pendingState snap = Some p ->
  pendingState st = Some p ->
  pendingState (handleQuizAnswer cm env snap v st) = None ->
  In (buildSessionStatus (sessionStats (handleQuizAnswer cm env snap v st)))
     (lastReply (handleQuizAnswer cm env snap v st))
  /\ In (lit "Explicación: " ++ QuizQuestion.explanation (question p))
        (lastReply (handleQuizAnswer cm env snap v st)).
Proof.
  intros Hp Hst. unfold handleQuizAnswer. rewrite Hp. cbv zeta.
  split_branches_eq; unfold lastReply; session_cbn; rewrite ?last_last;
    cbn [content In]; intros H; try (rewrite Hst in H); try discriminate H; tauto.
Qed.

Lemma handleCommand_status (env : Env) (snap st : Session) (t : jsstring) :
  t <> [] ->
  one_of (commandKey cm (trim t)) ["status"] = true ->
  handleCommand cm K env snap t st
  = showAssistant (replyEntryId env)
      [ buildSessionStatus (sessionStats snap);
        lit "💡 " ++ show (pickRandom (random env) (motivationalTips K)) ] st
    \/ trim t = [].
Proof.
  intros Hne Hk. destruct (trim t) as [|c r] eqn:Et; [right; reflexivity|left].
  assert (Hne' : trim t <> []) by (rewrite Et; discriminate).
  rewrite <- Et in *. clear Et c r.
  unfold handleCommand, normalizeInput.
  rewrite (proj2 (truthy_true _) Hne'). cbn [negb]. cbv zeta.
  apply one_of_In in Hk. destruct Hk as (l & Hin & Hk). rewrite Hk.
  cbn [In] in Hin. destruct Hin as [E | []]. subst l.
  rewrite_guards. reflexivity.
Qed.

(** X22: the reply that ends a round (a correct answer, a second wrong one,
    a skip) contains the explanation of the question and the status line of
    the new statistics; and [status], asked right after, starts with that
    same status line and leaves the statistics as they are. *)
Theorem status_repeats_the_resolution (env1 env2 : Env) (line1 line2 : jsstring)
    (st : Session) (p : Pending) :
  pendingState st = Some p ->
  let st1 := submitLine cm K env1 line1 st in
  let st2 := submitLine cm K env2 line2 st1 in
  pendingState st1 = None ->
  trim line2 = lit "status" ->
  In (lit "Explicación: " ++ QuizQuestion.explanation (question p)) (lastReply st1)
  /\ In (buildSessionStatus (sessionStats st1)) (lastReply st1)
  /\ hd_error (lastReply st2) = Some (buildSessionStatus (sessionStats st1))
  /\ sessionStats st2 = sessionStats st1.
Proof.
  intros Hp st1 st2 H1 H2. subst st2.
  assert (Hne1 : trim line1 <> []).
  { intros E. subst st1. rewrite (submitLine_blank cm K env1 line1 st E) in H1.
    cbn in H1. rewrite Hp in H1. discriminate. }
  assert (Hne2 : trim line2 <> []) by (rewrite H2; discriminate).
  assert (R : In (buildSessionStatus (sessionStats st1)) (lastReply st1)
              /\ In (lit "Explicación: " ++ QuizQuestion.explanation (question p))
                    (lastReply st1)).
  { subst st1. rewrite (submitLine_quiz cm K env1 line1 st p Hp Hne1) in *.
    apply handleQuizAnswer_resolution; [exact Hp | exact Hp | exact H1]. }
  destruct R as [R1 R2]. split; [exact R2|]. split; [exact R1|].
  rewrite (submitLine_command cm K env2 line2 st1 H1 Hne2).
  destruct (handleCommand_status env2 (setInputValue line2 st1)
              (accept env2 (trim line2) (setInputValue line2 st1)) (trim line2) Hne2)
    as [E | E].
  - rewrite trim_idem, H2. reflexivity.
  - rewrite E, lastReply_reply. split; reflexivity.
  - rewrite trim_idem in E. contradiction.
Qed.

(** What a line that asks for no hint does to the round: it ends it, or it
    was the first wrong answer. *)
Lemma handleQuizAnswer_try (env : Env) (snap st : Session) (v : jsstring)
    (p : Pending) :
  pendingState snap = Some p ->
  normalized cm v <> lit "hint" -> normalized cm v <> lit "pista" ->
  let st' := handleQuizAnswer cm env snap v st in
  (pendingState st' = None
   /\ answered (sessionStats st') = (answered (sessionStats snap) + 1)%N)
  \/ (attempts p = 0%N
      /\ pendingState st'
         = Some {| question := question p; attempts := 1;
                   revealedHint := revealedHint p |}
      /\ sessionStats st' = sessionStats st).
Proof.
  intros Hp H1 H2 st'. subst st'. unfold handleQuizAnswer. rewrite Hp. cbv zeta.
  rewrite (proj2 (str_eqb_neq _ _) H1), (proj2 (str_eqb_neq _ _) H2). cbn [orb].
  split_branches_eq; session_cbn.
  - left. split; reflexivity.
  - left. split; reflexivity.
  - left. split; reflexivity.
  - right.
    match goal with H : (2 <=? _)%N = false |- _ => apply N.leb_gt in H end.
    assert (Ha : attempts p = 0%N) by lia. rewrite Ha. repeat split.
Qed.

(** X23: two tries at most.  With a question pending, any two accepted lines
    that are not hint requests finish exactly one round between them:
    after the second, [answered] is one more than before the first. *)
Theorem two_tries_end_the_round (env1 env2 : Env) (line1 line2 : jsstring)
    (st : Session) (p : Pending) :
  pendingState st = Some p ->
  trim line1 <> [] -> trim line2 <> [] ->
  normalized cm line1 <> lit "hint" -> normalized cm line1 <> lit "pista" ->
  normalized cm line2 <> lit "hint" -> normalized cm line2 <> lit "pista" ->
  let st2 := submitLine cm K env2 line2 (submitLine cm K env1 line1 st) in
  answered (sessionStats st2) = (answered (sessionStats st) + 1)%N.
Proof.
  intros Hp Hn1 Hn2 Ha1 Hb1 Ha2 Hb2. cbv zeta.
  assert (T : forall line, normalized cm (trim line) = normalized cm line).
  { intros line. unfold normalized. rewrite trim_idem. reflexivity. }
  set (st1 := submitLine cm K env1 line1 st).
  assert (S1 : (pendingState st1 = None
                /\ answered (sessionStats st1) = (answered (sessionStats st) + 1)%N)
               \/ (exists p1, pendingState st1 = Some p1 /\ attempts p1 = 1%N
                              /\ sessionStats st1 = sessionStats st)).
  { subst st1. rewrite (submitLine_quiz cm K env1 line1 st p Hp Hn1).
    destruct (handleQuizAnswer_try env1 (setInputValue line1 st)
                (accept env1 (trim line1) (setInputValue line1 st)) (trim line1) p Hp)
      as [H | (_ & H & Hs)]; try (rewrite T; assumption).
    - left. exact H.
    - right. eexists. split; [exact H|]. split; [reflexivity | exact Hs]. }
  destruct S1 as [[P1 A1] | (p1 & P1 & At & S1)].
  - rewrite (submitLine_command cm K env2 line2 st1 P1 Hn2).
    rewrite (proj1 (handleCommand_frame cm K _ _ _ _)). exact A1.
  - rewrite (submitLine_quiz cm K env2 line2 st1 p1 P1 Hn2).
    destruct (handleQuizAnswer_try env2 (setInputValue line2 st1)
                (accept env2 (trim line2) (setInputValue line2 st1)) (trim line2) p1 P1)
      as [[_ H] | (H & _)]; try (rewrite T; assumption).
    + rewrite H. cbn [sessionStats setInputValue]. rewrite S1. reflexivity.
    + rewrite At in H. discriminate.
Qed.

(** X24: while a question is pending no command runs: the outcome of a
    submission does not depend on the content store, and an accepted line
    adds the line and one reply to the history, which is never reset. *)
Theorem quiz_mode_runs_no_command (env : Env) (line : jsstring) (st : Session)
    (p : Pending) :
  pendingState st = Some p ->
  (forall K' : Knowledge,
     submitLine cm K env line st = submitLine cm K' env line st)
  /\ (trim line <> [] ->
      exists lines,
        history (submitLine cm K env line st)
        = history st ++ [userEntry env (trim line); replyEntry env lines]).
Proof.
  intros Hp. split.
  - intros K'. unfold submitLine. rewrite !handleSubmit_unfold. cbv zeta.
    change (pendingState (setInputValue line st)) with (pendingState st).
    rewrite Hp. reflexivity.
  - intros Hne. rewrite (submitLine_quiz cm K env line st p Hp Hne).
    destruct (handleQuizAnswer_history cm env (setInputValue line st) 
                (accept env (trim line) (setInputValue line st)) (trim line) p Hp)
      as [lines E].
    exists lines. rewrite E. session_cbn. rewrite <- app_assoc. reflexivity.
Qed.

End Rounds.

Lemma status_repeats_the_resolution_witness :
  hd_error
    (lastReply
       (submitLine demoCase demoKnowledge demoEnv2 (lit "status")
          (submitLine demoCase demoKnowledge demoEnv (lit "tcp") quizActive)))
  = Some (lit "📊 Sesión | Resueltas: 1 | Correctas: 1 | Precisión: 100% | Racha: 1").
Proof.
  rewrite (proj1 (proj2 (proj2
    (status_repeats_the_resolution demoCase demoKnowledge demoEnv demoEnv2
       (lit "tcp") (lit "status") quizActive
       {| question := demoQuestion; attempts := 0; revealedHint := false |}
       eq_refl eq_refl eq_refl)))).
  vm_compute. reflexivity.
Defined.

Lemma two_tries_end_the_round_witness :
  answered
    (sessionStats
       (submitLine demoCase demoKnowledge demoEnv2 (lit "icmp")
          (submitLine demoCase demoKnowledge demoEnv (lit "udp") quizActive)))
  = 1%N.
Proof.
  refine (two_tries_end_the_round demoCase demoKnowledge demoEnv demoEnv2
            (lit "udp") (lit "icmp") quizActive
            {| question := demoQuestion; attempts := 0; revealedHint := false |}
            _ _ _ _ _ _ _);
    vm_compute; solve [reflexivity | discriminate].
Defined.

Lemma quiz_mode_runs_no_command_witness :
  exists lines,
    history (submitLine demoCase demoKnowledge demoEnv (lit "clear") quizActive)
    = history quizActive
      ++ [userEntry demoEnv (trim (lit "clear")); replyEntry demoEnv lines].
Proof.
  refine (proj2 (quiz_mode_runs_no_command demoCase demoKnowledge demoEnv (lit "clear")
                   quizActive
                   {| question := demoQuestion; attempts := 0; revealedHint := false |}
                   _) _).
  - reflexivity.
  - vm_compute; discriminate.
Defined.

(** ** How much a hint shows *)

Section Hint.

Variable cm : CaseMapping.
Variable K : Knowledge.

(** X25: the first hint splits the answer in two and shows the first part,
    which is as long as the rest or one character longer.  So an answer of
    two characters or more is never shown whole, and an answer of one
    character is. *)
Theorem hint_shows_the_longer_half (env : Env) (line : jsstring) (st : Session)
    (p : Pending) :
  pendingState st = Some p ->
  revealedHint p = false ->
  normalized cm line = lit "hint" \/ normalized cm line = lit "pista" ->
  exists shown hidden,
    QuizQuestion.answer (question p) = shown ++ hidden
    /\ lastReply (submitLine cm K env line st) = [lit "Pista: " ++ shown ++ lit "..."]
    /\ (List.length hidden <= List.length shown <= List.length hidden + 1)%nat
    /\ (hidden = [] <-> (List.length (QuizQuestion.answer (question p)) <= 1)%nat).
Proof.
  intros Hp Hr Htok.
  assert (Hne : trim line <> []).
  { intros E. unfold normalized in Htok. rewrite E in Htok.
    destruct Htok as [H | H]; discriminate H. }
  assert (E : str_eqb (normalized cm (trim line)) (lit "hint")
              || str_eqb (normalized cm (trim line)) (lit "pista") = true).
  { unfold normalized. rewrite trim_idem. fold (normalized cm line).
    apply orb_true_iff. destruct Htok as [H | H]; [left | right];
      apply str_eqb_eq; exact H. }
  set (ans := QuizQuestion.answer (question p)).
  pose proof (ceil_half_spec (List.length ans)) as Hk.
  exists (firstn (ceil_half (List.length ans)) ans),
         (skipn (ceil_half (List.length ans)) ans).
  split; [symmetry; apply firstn_skipn|]. split.
  - rewrite (submitLine_quiz cm K env line st p Hp Hne).
    unfold handleQuizAnswer.
    change (pendingState (setInputValue line st)) with (pendingState st).
    rewrite Hp. cbv zeta. rewrite E, Hr. apply lastReply_reply.
  - clearbody ans. clear - Hk. unfold jsstring in *.
    rewrite length_firstn, length_skipn.
    generalize dependent (ceil_half (List.length ans)). intros k Hk.
    split; [lia|]. split.
    + intros H. apply (f_equal (@List.length _)) in H. rewrite length_skipn in H.
      cbn [List.length] in H. lia.
    + intros H. apply length_zero_iff_nil. rewrite length_skipn. lia.
Qed.

End Hint.

Lemma hint_shows_the_longer_half_witness :
  exists shown hidden,
    QuizQuestion.answer demoQuestion = shown ++ hidden
    /\ lastReply (submitLine demoCase demoKnowledge demoEnv (lit "pista") quizActive)
       = [lit "Pista: " ++ shown ++ lit "..."]
    /\ (List.length hidden <= List.length shown <= List.length hidden + 1)%nat
    /\ (hidden = [] <-> (List.length (QuizQuestion.answer demoQuestion) <= 1)%nat).
Proof.
  refine (hint_shows_the_longer_half demoCase demoKnowledge demoEnv (lit "pista")
            quizActive
            {| question := demoQuestion; attempts := 0; revealedHint := false |} _ _ _).
  - reflexivity.
  - reflexivity.
  - right. vm_compute; reflexivity.
Defined.
